(** * Morocco payments dashboard: a shallow embedding of [dashboard.py]

    The development follows the source file top-down.  Python values,
    exceptions and strings come first, then the library functions the
    dashboard calls ([float], [round], f-string formatting, [re.search],
    [re.sub], [pandas.DataFrame]), then the two cached entry points
    [get_bam_report_data] and [get_app_store_data] with their nested
    helpers, and finally the properties proved about them. *)

From Stdlib Require Import ZArith NArith List Ascii String Bool Lia.
From Stdlib Require Import Floats.SpecFloat.
From stdpp Require Import base option list gmap strings.

Set Default Proof Using "Type".
Local Open Scope Z_scope.

(** ** Strings

    A Python [str] is a sequence of Unicode code points.  Literals are
    written as Rocq strings (UTF-8) and decoded by [str]. *)

Module Text.

Definition char := N.
Definition text := list char.

Definition byte_of (a : ascii) : N := N_of_ascii a.

(** UTF-8 decoding of a byte list; a byte that does not start a well
    formed sequence is kept as the code point of the same number. *)
Fixpoint utf8_decode (bs : list N) : text :=
  match bs with
  | [] => []
  | b0 :: r0 =>
    if (b0 <? 192)%N then b0 :: utf8_decode r0
    else match r0 with
    | [] => [b0]
    | b1 :: r1 =>
      if (b0 <? 224)%N then ((b0 - 192) * 64 + (b1 - 128))%N :: utf8_decode r1
      else match r1 with
      | [] => [b0; b1]
      | b2 :: r2 =>
        if (b0 <? 240)%N
        then ((b0 - 224) * 4096 + (b1 - 128) * 64 + (b2 - 128))%N :: utf8_decode r2
        else match r2 with
        | [] => [b0; b1; b2]
        | b3 :: r3 =>
          ((b0 - 240) * 262144 + (b1 - 128) * 4096 + (b2 - 128) * 64 + (b3 - 128))%N
            :: utf8_decode r3
        end
      end
    end
  end.

Definition str (s : string) : text :=
  utf8_decode (map byte_of (list_ascii_of_string s)).

(** One-character literals. *)
Definition chr (a : ascii) : char := byte_of a.
Arguments chr a%_char.

Definition char_eqb (a b : char) : bool := (a =? b)%N.

Fixpoint text_eqb (s t : text) : bool :=
  match s, t with
  | [], [] => true
  | a :: s', b :: t' => char_eqb a b && text_eqb s' t'
  | _, _ => false
  end.

(** [str.isspace] for one code point, which is also the class [\s] of
    [re] on [str] patterns. *)
Definition is_space (c : char) : bool :=
  ((9 <=? c) && (c <=? 13) || (28 <=? c) && (c <=? 32)
   || (c =? 133) || (c =? 160) || (c =? 5760)
   || (8192 <=? c) && (c <=? 8202)
   || (c =? 8232) || (c =? 8233) || (c =? 8239) || (c =? 8287) || (c =? 12288))%N.

(** The decimal digits, [str.isdecimal]: the class [\d] of [re] on
    [str] patterns, and the characters that [float] reads as digits.
    They come in runs of ten consecutive code points, zero first; the
    zeros are those of Unicode 14.0, the ASCII [0] and the zeros of 65
    other scripts and styles. *)
Definition digit_zeros : list N :=
  [ 48; 1632; 1776; 1984; 2406; 2534; 2662; 2790;
    2918; 3046; 3174; 3302; 3430; 3558; 3664; 3792;
    3872; 4160; 4240; 6112; 6160; 6470; 6608; 6784;
    6800; 6992; 7088; 7232; 7248; 42528; 43216; 43264;
    43472; 43504; 43600; 44016; 65296; 66720; 68912; 69734;
    69872; 69942; 70096; 70384; 70736; 70864; 71248; 71360;
    71472; 71904; 72016; 72784; 73040; 73120; 92768; 92864;
    93008; 120782; 120792; 120802; 120812; 120822; 123200; 123632;
    125264; 130032 ]%N.

(** The zero of the run that holds [c]. *)
Definition digit_zero (c : char) : option N :=
  List.find (fun z => (z <=? c) && (c <? z + 10))%N digit_zeros.

Definition is_digit (c : char) : bool :=
  match digit_zero c with Some _ => true | None => false end.

Definition digit_value (c : char) : Z :=
  match digit_zero c with Some z => Z.of_N (c - z) | None => 0 end.

(** The ten ASCII digits, which are all that the syntax of a pattern
    knows. *)
Definition is_ascii_digit (c : char) : bool := ((48 <=? c) && (c <=? 57))%N.

(** [s.replace(old, new)] for a one-character [old]. *)
Definition replace1 (old : char) (new : text) (s : text) : text :=
  flat_map (fun c => if char_eqb c old then new else [c]) s.

(** [needle in s] *)
Fixpoint starts_with (p s : text) : bool :=
  match p, s with
  | [], _ => true
  | a :: p', b :: s' => char_eqb a b && starts_with p' s'
  | _ :: _, [] => false
  end.

Fixpoint contains (needle s : text) : bool :=
  starts_with needle s ||
  match s with
  | [] => false
  | _ :: s' => contains needle s'
  end.

(** Truth value of a string: [if s:] *)
Definition truthy (s : text) : bool :=
  match s with [] => false | _ :: _ => true end.

(** Decimal digits of a natural number, as [str(n)] prints them. *)
Fixpoint uint_digits (u : Decimal.uint) : text :=
  match u with
  | Decimal.Nil => []
  | Decimal.D0 u' => 48%N :: uint_digits u'
  | Decimal.D1 u' => 49%N :: uint_digits u'
  | Decimal.D2 u' => 50%N :: uint_digits u'
  | Decimal.D3 u' => 51%N :: uint_digits u'
  | Decimal.D4 u' => 52%N :: uint_digits u'
  | Decimal.D5 u' => 53%N :: uint_digits u'
  | Decimal.D6 u' => 54%N :: uint_digits u'
  | Decimal.D7 u' => 55%N :: uint_digits u'
  | Decimal.D8 u' => 56%N :: uint_digits u'
  | Decimal.D9 u' => 57%N :: uint_digits u'
  end.

Definition digits_of_N (n : N) : text := uint_digits (N.to_uint n).

(** Value of a run of digits, most significant first. *)
Definition N_of_digits (ds : text) : Z :=
  fold_left (fun acc c => 10 * acc + digit_value c) ds 0.

End Text.
Export Text.

(** ** Exceptions

    A call either returns a value or raises.  Only the exception classes
    the dashboard can meet are listed; all of them derive from
    [Exception], so a handler [except Exception] catches every [Raise]. *)

Module Exn.

Inductive exn :=
| ValueError
| ZeroDivisionError
| TypeError
| KeyError
| IndexError
| AttributeError
| OverflowError
| OSError
| RequestError.     (* any error raised by [requests], [pypdf], a store client *)

Inductive result (A : Type) :=
| Return (a : A)
| Raise (e : exn).
Arguments Return {A} a.
Arguments Raise {A} e.

Definition bind {A B} (m : result A) (k : A -> result B) : result B :=
  match m with
  | Return a => k a
  | Raise e => Raise e
  end.

#[global] Instance result_ret : MRet result := fun A a => Return a.
#[global] Instance result_bind : MBind result := fun A B k m => bind m k.

Definition returns {A} (m : result A) : bool :=
  match m with Return _ => true | Raise _ => false end.

(** [try: ... except Exception: <nothing>] seen as an optional value. *)
Definition catch {A} (m : result A) : option A :=
  match m with Return a => Some a | Raise _ => None end.

End Exn.
Export Exn.

(** ** Floating point numbers

    A Python [float] is an IEEE 754 binary64 number.  The arithmetic is
    the one of [SpecFloat] at precision 53; conversions from and to
    decimal text are computed exactly on integers. *)

Module Float.

Definition float := spec_float.
Definition prec : Z := 53.
Definition emax : Z := 1024.

Definition fsub : float -> float -> float := SFsub prec emax.
Definition fmul : float -> float -> float := SFmul prec emax.

Definition is_zero (x : float) : bool :=
  match x with S754_zero _ => true | _ => false end.

(** [x / y] raises [ZeroDivisionError] on a zero divisor. *)
Definition truediv (x y : float) : result float :=
  if is_zero y then Raise ZeroDivisionError else Return (SFdiv prec emax x y).

(** The binary64 number nearest to [num / den] (ties to even), with the
    sign [neg]; [num >= 0] and [den > 0]. *)
Definition nearest (neg : bool) (num den : Z) : float :=
  match num, den with
  | Zpos n, Zpos d => SFdiv prec emax (S754_finite neg n 0) (S754_finite false d 0)
  | _, _ => S754_zero neg
  end.

(** The value [m * 2^e] of a finite number as a fraction. *)
Definition fraction (m : positive) (e : Z) : Z * Z :=
  if 0 <=? e then (Zpos m * 2 ^ e, 1) else (Zpos m, 2 ^ (- e)).

(** Nearest integer to [num / den], ties to even. *)
Definition round_half_even (num den : Z) : Z :=
  let q := num / den in
  match (2 * (num mod den)) ?= den with
  | Lt => q
  | Gt => q + 1
  | Eq => if Z.even q then q else q + 1
  end.

(** [m * 10^e] as a float, [m >= 0]: the value of a decimal literal. *)
Definition of_decimal (neg : bool) (m e : Z) : float :=
  if 0 <=? e then nearest neg (m * 10 ^ e) 1 else nearest neg m (10 ^ (- e)).

(** Equality of the values of two finite numbers (whatever the
    representation of the mantissa). *)
Definition same_value (x y : float) : bool :=
  match x, y with
  | S754_finite sx mx ex, S754_finite sy my ey =>
      Bool.eqb sx sy &&
      (let '(a, b) := fraction mx ex in
       let '(c, d) := fraction my ey in
       a * d =? c * b)
  | S754_zero sx, S754_zero sy => Bool.eqb sx sy
  | S754_infinity sx, S754_infinity sy => Bool.eqb sx sy
  | _, _ => false
  end.

(** *** [float(s)] *)

Fixpoint span (p : char -> bool) (s : text) : text * text :=
  match s with
  | [] => ([], [])
  | c :: s' =>
    if p c then let '(a, b) := span p s' in (c :: a, b) else ([], s)
  end.

Fixpoint lstrip (p : char -> bool) (s : text) : text :=
  match s with
  | [] => []
  | c :: s' => if p c then lstrip p s' else s
  end.

Definition strip (p : char -> bool) (s : text) : text :=
  rev (lstrip p (rev (lstrip p s))).

(** Blanks that [float] removes at both ends: the ASCII ones of
    [Py_ISSPACE] and the Unicode spaces above U+007F, which the
    conversion first turns into an ASCII space. *)
Definition float_blank (c : char) : bool :=
  ((9 <=? c) && (c <=? 13) || (c =? 32) || (127 <? c) && is_space c)%N.

(** An underscore is accepted only between two digits. *)
Fixpoint underscores_ok (prev : char) (s : text) : bool :=
  match s with
  | [] => negb (char_eqb prev (chr "_"))
  | c :: s' =>
    (if char_eqb c (chr "_") then is_digit prev
     else negb (char_eqb prev (chr "_")) || is_digit c)
    && underscores_ok c s'
  end.

Definition ascii_lower (c : char) : char :=
  if ((65 <=? c) && (c <=? 90))%N then (c + 32)%N else c.

Definition split_sign (s : text) : bool * text :=
  match s with
  | c :: r =>
    if char_eqb c (chr "-") then (true, r)
    else if char_eqb c (chr "+") then (false, r)
    else (false, s)
  | [] => (false, s)
  end.

(** Digits, an optional point, an optional exponent: the mantissa as an
    integer and the power of ten that scales it. *)
Definition parse_decimal (s : text) : option (Z * Z) :=
  let '(ip, r1) := span is_digit s in
  let '(fp, r2) :=
    match r1 with
    | c :: r => if char_eqb c (chr ".") then span is_digit r else ([], r1)
    | [] => ([], r1)
    end in
  match ip ++ fp with
  | [] => None
  | ds =>
    let '(ex, r3) :=
      match r2 with
      | c :: r =>
        if char_eqb (ascii_lower c) (chr "e") then
          let '(neg, r') := split_sign r in
          let '(ed, r'') := span is_digit r' in
          match ed with
          | [] => (0, r2)
          | _ => ((if neg then - N_of_digits ed else N_of_digits ed), r'')
          end
        else (0, r2)
      | [] => (0, r2)
      end in
    match r3 with
    | [] => Some (N_of_digits ds, ex - Z.of_nat (length fp))
    | _ => None
    end
  end.

Definition py_float (s : text) : result float :=
  let s1 := strip float_blank s in
  if negb (underscores_ok 0%N s1) then Raise ValueError else
  let s2 := filter (fun c => negb (char_eqb c (chr "_"))) s1 in
  let '(neg, body) := split_sign s2 in
  let word := map ascii_lower body in
  if text_eqb word (str "inf") || text_eqb word (str "infinity")
  then Return (S754_infinity neg)
  else if text_eqb word (str "nan") then Return S754_nan
  else match parse_decimal body with
       | Some (m, e) => Return (of_decimal neg m e)
       | None => Raise ValueError
       end.

(** *** [round(x, 1)]

    The exact value is rounded to one decimal (ties to even) and the
    decimal is read back as a float; infinities, NaN and zeros are
    returned unchanged. *)
Definition py_round1 (x : float) : float :=
  match x with
  | S754_finite s m e =>
    let '(num, den) := fraction m e in
    nearest s (round_half_even (10 * num) den) 10
  | _ => x
  end.

(** *** Formatting

    [f"{x:.1f}"] prints the exact value rounded to one decimal (ties to
    even). *)
Definition sign_text (neg : bool) : text := if neg then str "-" else [].

Definition format_1f (x : float) : text :=
  match x with
  | S754_nan => str "nan"
  | S754_infinity s => sign_text s ++ str "inf"
  | S754_zero s => sign_text s ++ str "0.0"
  | S754_finite s m e =>
    let '(num, den) := fraction m e in
    let n := round_half_even (10 * num) den in
    sign_text s ++ digits_of_N (Z.to_N (n / 10)) ++ str "."
      ++ digits_of_N (Z.to_N (n mod 10))
  end.

(** [repr(x)], which is also what [f"{x}"] prints: the shortest decimal
    that reads back as [x], the closest to [x] when several have that
    length. *)
Definition decimal_length (n : Z) : Z :=
  Z.of_nat (length (digits_of_N (Z.to_N n))).

(** [num / den * 10^j] as a fraction. *)
Definition scale10 (num den j : Z) : Z * Z :=
  if 0 <=? j then (num * 10 ^ j, den) else (num, den * 10 ^ (- j)).

(** The integer [k] with [10^k <= num / den < 10^(k+1)]. *)
Definition floor_log10 (num den : Z) : Z :=
  let k := decimal_length num - decimal_length den in
  let '(a, b) := scale10 num den (- k) in
  if b <=? a then k else k - 1.

(** Search for the least number [n] of significant digits, from [n]
    upwards; the result is the digits as an integer and the power of ten
    that scales them.  Seventeen digits always read back. *)
Fixpoint shortest_digits (x : float) (num den k : Z) (fuel : nat) (n : Z)
  : Z * Z :=
  let j := n - 1 - k in
  let '(a, b) := scale10 num den j in
  let lo := a / b in
  let hi := lo + 1 in
  let reads_back d := same_value (of_decimal false d (- j)) x in
  let lo_first :=
    match (2 * (a mod b)) ?= b with
    | Lt => true
    | Gt => false
    | Eq => Z.even lo
    end in
  let '(d1, d2) := if lo_first then (lo, hi) else (hi, lo) in
  match fuel with
  | O => (d1, - j)
  | S fuel' =>
    if reads_back d1 then (d1, - j)
    else if reads_back d2 then (d2, - j)
    else shortest_digits x num den k fuel' (n + 1)
  end.

Definition zero_char (c : char) : bool := char_eqb c (chr "0").

Definition zeros (n : Z) : text := repeat (chr "0") (Z.to_nat n).

Definition exponent_text (e : Z) : text :=
  let ds := digits_of_N (Z.to_N (Z.abs e)) in
  str "e" ++ (if e <? 0 then str "-" else str "+")
    ++ (if (length ds <? 2)%nat then str "0" else []) ++ ds.

Definition repr_finite (m : positive) (e : Z) : text :=
  let x := S754_finite false m e in
  let '(num, den) := fraction m e in
  let '(d, p) := shortest_digits x num den (floor_log10 num den) 16 1 in
  let all := digits_of_N (Z.to_N d) in
  let ds := rev (lstrip zero_char (rev all)) in
  let n := Z.of_nat (length ds) in
  let decpt := Z.of_nat (length all) + p in
  if (decpt <=? -4) || (16 <? decpt) then
    take 1 ds
      ++ (match drop 1 ds with [] => [] | r => str "." ++ r end)
      ++ exponent_text (decpt - 1)
  else if decpt <=? 0 then str "0." ++ zeros (- decpt) ++ ds
  else if n <=? decpt then ds ++ zeros (decpt - n) ++ str ".0"
  else take (Z.to_nat decpt) ds ++ str "." ++ drop (Z.to_nat decpt) ds.

Definition repr (x : float) : text :=
  match x with
  | S754_nan => str "nan"
  | S754_infinity s => sign_text s ++ str "inf"
  | S754_zero s => sign_text s ++ str "0.0"
  | S754_finite s m e => sign_text s ++ repr_finite m e
  end.

End Float.
Export Float.

(** ** Regular expressions

    The fragment of [re] that the dashboard's patterns use: literal
    characters, [.], the classes [\d] and [\s], bracketed sets of these,
    the greedy [+], the lazy [*?] and capturing groups.  Matching is the
    backtracking search of [re]: alternatives are tried in priority order
    and the first success wins. *)

Module Re.

Inductive atom :=
| Lit (c : char)     (* the character itself *)
| Dot                (* [.] : anything but a newline *)
| Digit              (* [\d] *)
| Space.             (* [\s] *)

(** A bracketed set; a single atom is the set with that one member. *)
Definition cset := list atom.

Inductive piece :=
| Once (cs : cset)
| Plus (cs : cset)         (* [x+]  *)
| LazyStar (cs : cset)     (* [x*?] *)
| Open                     (* [(]   *)
| Close.                   (* [)]   *)

Definition regex := list piece.

(** *** Reading a pattern *)

Definition is_special (c : char) : bool :=
  existsb (char_eqb c) (str "*+?{}|^$]").

Definition is_alnum (c : char) : bool :=
  is_ascii_digit c || ((65 <=? c) && (c <=? 90) || (97 <=? c) && (c <=? 122))%N.

(** The atom written [\c]. *)
Definition escape (c : char) : option atom :=
  if char_eqb c (chr "d") then Some Digit
  else if char_eqb c (chr "s") then Some Space
  else if is_alnum c then None
  else Some (Lit c).

(** The members of a set, read after its opening bracket. *)
Fixpoint parse_set (s : text) : option (cset * text) :=
  match s with
  | [] => None
  | c :: r =>
    if char_eqb c (chr "]") then Some ([], r)
    else if char_eqb c (chr "\") then
      match r with
      | [] => None
      | d :: r' =>
        match escape d, parse_set r' with
        | Some a, Some (cs, rest) => Some (a :: cs, rest)
        | _, _ => None
        end
      end
    else if char_eqb c (chr "-") || char_eqb c (chr "^") || char_eqb c (chr "[")
    then None
    else match parse_set r with
         | Some (cs, rest) => Some (Lit c :: cs, rest)
         | None => None
         end
  end.

Definition parse_atom (c : char) (r : text) : option (cset * text) :=
  if char_eqb c (chr "[") then parse_set r
  else if char_eqb c (chr "\") then
    match r with
    | [] => None
    | d :: r' => match escape d with Some a => Some ([a], r') | None => None end
    end
  else if char_eqb c (chr ".") then Some ([Dot], r)
  else if is_special c then None
  else Some ([Lit c], r).

(** The quantifier that follows an atom. *)
Definition parse_quantifier (cs : cset) (r : text) : option (piece * text) :=
  match r with
  | q :: r1 =>
    if char_eqb q (chr "+") then
      match r1 with
      | q2 :: _ => if is_special q2 then None else Some (Plus cs, r1)
      | [] => Some (Plus cs, r1)
      end
    else if char_eqb q (chr "*") then
      match r1 with
      | q2 :: r2 => if char_eqb q2 (chr "?") then Some (LazyStar cs, r2) else None
      | [] => None
      end
    else if is_special q then None
    else Some (Once cs, r)
  | [] => Some (Once cs, r)
  end.

Fixpoint parse (fuel : nat) (s : text) : option regex :=
  match s with
  | [] => Some []
  | c :: r =>
    match fuel with
    | O => None
    | S fuel' =>
      if char_eqb c (chr "(") then cons Open <$> parse fuel' r
      else if char_eqb c (chr ")") then cons Close <$> parse fuel' r
      else
        match parse_atom c r with
        | None => None
        | Some (cs, r1) =>
          match parse_quantifier cs r1 with
          | None => None
          | Some (p, r2) => cons p <$> parse fuel' r2
          end
        end
    end
  end.

Definition compile (pattern : text) : option regex :=
  parse (length pattern) pattern.

(** *** Matching *)

(** Lower case of a character as [re.IGNORECASE] computes it, for the
    comparison with an ASCII letter of the pattern: besides the ASCII
    capitals, U+0130 lowers to [i] and U+212A to [k]. *)
Definition lower (c : char) : char :=
  if ((65 <=? c) && (c <=? 90))%N then (c + 32)%N
  else if (c =? 304)%N then chr "i"
  else if (c =? 8490)%N then chr "k"
  else c.

(** A literal under [re.IGNORECASE]: equal lower cases, or one of the
    two extra equivalences with an ASCII letter (dotless i with [i],
    long s with [s]). *)
Definition lit_match (ignorecase : bool) (l c : char) : bool :=
  if ignorecase then
    let ll := lower l in
    let lc := lower c in
    char_eqb lc ll
    || char_eqb ll (chr "i") && (lc =? 305)%N
    || char_eqb ll (chr "s") && (lc =? 383)%N
  else char_eqb c l.

Definition atom_match (ignorecase : bool) (a : atom) (c : char) : bool :=
  match a with
  | Lit l => lit_match ignorecase l c
  | Dot => negb (c =? 10)%N
  | Digit => is_digit c
  | Space => is_space c
  end.

Definition accepts (ignorecase : bool) (cs : cset) (c : char) : bool :=
  existsb (fun a => atom_match ignorecase a c) cs.

(** [match_here re s opened caps]: match [re] at the start of [s].
    [opened] holds, for every group that is open, the text that remained
    when it opened; [caps] the groups closed so far, last first. *)
Fixpoint match_here (ic : bool) (re : regex)
  : text -> list text -> list text -> option (list text) :=
  match re with
  | [] => fun _ _ caps => Some (rev caps)
  | p :: re' =>
    let k := match_here ic re' in
    match p with
    | Once cs => fun s opened caps =>
        match s with
        | c :: s' => if accepts ic cs c then k s' opened caps else None
        | [] => None
        end
    | Plus cs =>
        fix more (s : text) (opened caps : list text) : option (list text) :=
          match s with
          | c :: s' =>
            if accepts ic cs c then
              match more s' opened caps with
              | Some r => Some r
              | None => k s' opened caps
              end
            else None
          | [] => None
          end
    | LazyStar cs =>
        fix skip (s : text) (opened caps : list text) : option (list text) :=
          match k s opened caps with
          | Some r => Some r
          | None =>
            match s with
            | c :: s' => if accepts ic cs c then skip s' opened caps else None
            | [] => None
            end
          end
    | Open => fun s opened caps => k s (s :: opened) caps
    | Close => fun s opened caps =>
        match opened with
        | o :: opened' => k s opened' (take (length o - length s) o :: caps)
        | [] => None
        end
    end
  end.

(** [re.search]: the first position, from the left, where the pattern
    matches; the result is the list of the groups' texts. *)
Fixpoint search_from (ic : bool) (re : regex) (s : text) : option (list text) :=
  match match_here ic re s [] [] with
  | Some groups => Some groups
  | None =>
    match s with
    | [] => None
    | _ :: s' => search_from ic re s'
    end
  end.

Definition search (pattern : text) (s : text) (ignorecase : bool)
  : option (list text) :=
  match compile pattern with
  | Some re => search_from ignorecase re s
  | None => None
  end.

(** [m.group(i)] for [i >= 1]. *)
Definition group (m : list text) (i : nat) : text := nth (i - 1) m [].

(** [re.sub(r'\s+', ' ', s)]: every maximal run of blanks becomes one
    space.  [in_run] tells that the previous character was a blank. *)
Fixpoint sub_blanks_from (in_run : bool) (s : text) : text :=
  match s with
  | [] => []
  | c :: s' =>
    if is_space c
    then (if in_run then [] else [chr " "]) ++ sub_blanks_from true s'
    else c :: sub_blanks_from false s'
  end.

Definition sub_blanks (s : text) : text := sub_blanks_from false s.

End Re.

(** ** Python values

    The values that reach the dashboard from JSON documents and store
    replies, and that it stores in table cells. *)

Module Py.

Set Warnings "-register-all".

Inductive value :=
| PyNone
| PyBool (b : bool)
| PyInt (z : Z)
| PyFloat (x : float)
| PyStr (s : text)
| PyList (l : list value)
| PyDict (d : list (text * value)).

(** A [dict] keeps its items in insertion order. *)
Definition dict := list (text * value).

Fixpoint lookup_key (k : text) (d : dict) : option value :=
  match d with
  | [] => None
  | (k', v) :: d' => if decide (k' = k) then Some v else lookup_key k d'
  end.

Definition keys (d : dict) : list text := map fst d.

(** [d.get(k)] and [d.get(k, default)] *)
Definition get (d : dict) (k : text) : value := default PyNone (lookup_key k d).
Definition get_or (d : dict) (k : text) (dflt : value) : value :=
  default dflt (lookup_key k d).

(** [v.get] exists on dictionaries only. *)
Definition as_dict (v : value) : result dict :=
  match v with
  | PyDict d => Return d
  | _ => Raise AttributeError
  end.

(** [v[k]] for a string [k] *)
Definition getitem_str (v : value) (k : text) : result value :=
  match v with
  | PyDict d => match lookup_key k d with Some x => Return x | None => Raise KeyError end
  | _ => Raise TypeError
  end.

(** [v[0]]; the keys of a JSON object are strings, so [0] is never one. *)
Definition getitem_0 (v : value) : result value :=
  match v with
  | PyList (x :: _) => Return x
  | PyList [] => Raise IndexError
  | PyStr (c :: _) => Return (PyStr [c])
  | PyStr [] => Raise IndexError
  | PyDict _ => Raise KeyError
  | _ => Raise TypeError
  end.

(** [v[:n]] *)
Definition slice_to (n : nat) (v : value) : result value :=
  match v with
  | PyStr s => Return (PyStr (take n s))
  | PyList l => Return (PyList (take n l))
  | _ => Raise TypeError
  end.

(** [s.split(sep)[0]] for a one-character separator: the text before
    the first [sep]. *)
Fixpoint before (sep : char) (s : text) : text :=
  match s with
  | [] => []
  | c :: s' => if char_eqb c sep then [] else c :: before sep s'
  end.

Definition split_first (sep : char) (v : value) : result value :=
  match v with
  | PyStr s => Return (PyStr (before sep s))
  | _ => Raise AttributeError
  end.

End Py.
Export Py.

(** ** Tables

    A [pandas.DataFrame] as its column labels and its rows of cells.  A
    cell holds the value that the record gives.  pandas stores a column
    under one type: in a column of strings, as are all the columns of
    the report table and the Wallet and Platform columns of the app
    table, the cells are those values; in a column that mixes numbers
    and [None] it may store another representation of the same entry
    (NaN for [None], a float for an integer).  The statements about the
    cells of the app table therefore speak of its labels only. *)

Module Pd.

Record DataFrame := { columns : list text; rows : list (list value) }.

Definition nan : value := PyFloat S754_nan.

Definition add_key (cols : list text) (k : text) : list text :=
  if decide (k ∈ cols) then cols else cols ++ [k].

(** Labels of the records' keys, in order of first appearance. *)
Definition union_keys (cols : list text) (ks : list text) : list text :=
  foldl add_key cols ks.

Definition align (cols : list text) (r : dict) : list value :=
  map (fun c => default nan (lookup_key c r)) cols.

(** [pd.DataFrame(records)] for a list of dictionaries: a key missing
    from a record gives a NaN cell. *)
Definition of_records (records : list dict) : DataFrame :=
  let cols := foldl (fun cols r => union_keys cols (keys r)) [] records in
  {| columns := cols; rows := map (align cols) records |}.

(** [df.empty]: no row or no column. *)
Definition empty (df : DataFrame) : bool :=
  match columns df, rows df with
  | _ :: _, _ :: _ => false
  | _, _ => true
  end.

(** A row of a table as the record of its cells. *)
Definition record_of (cols : list text) (row : list value) : dict := zip cols row.

(** [pd.concat([a, b], ignore_index=True)]: the rows of [a] then those
    of [b], over the union of the columns. *)
Definition concat (a b : DataFrame) : DataFrame :=
  let cols := union_keys (columns a) (columns b) in
  {| columns := cols;
     rows := map (fun r => align cols (record_of (columns a) r)) (rows a)
          ++ map (fun r => align cols (record_of (columns b) r)) (rows b) |}.

End Pd.

(** ** The regulator's report: [get_bam_report_data]

    One run of the function body; the cache that [st.cache_data] puts in
    front of it decides when a run happens and is modelled apart, in
    [Cache]. *)

Module Report.
Import Pd.

(** The dictionary literal of one table row. *)
Definition row (category metric y2022 y2023 growth : text) : dict :=
  [ (str "Category", PyStr category);
    (str "Metric", PyStr metric);
    (str "2022", PyStr y2022);
    (str "2023", PyStr y2023);
    (str "Growth (2022-2023)", PyStr growth) ].

Definition fallback_data : list dict :=
  [ row (str "POS Payments") (str "Number of Transactions")
        (str "106.4 million") (str "131.3 million") (str "+23%");
    row (str "") (str "Value of Transactions")
        (str "MAD 39.2 billion") (str "MAD 46.9 billion") (str "+19.9%");
    row (str "") (str "↳ of which Contactless")
        (str "55.4 million (52% of POS)") (str "75.4 million (57% of POS)")
        (str "+36.1% (in transaction count)");
    row (str "eCommerce Payments") (str "Number of Transactions")
        (str "26.8 million") (str "32.1 million") (str "+20%");
    row (str "") (str "Value of Transactions")
        (str "MAD 8.6 billion") (str "MAD 9.9 billion") (str "+15%");
    row (str "Mobile Payments (M-Wallet)") (str "Number of Transactions")
        (str "7.9 million") (str "9.7 million") (str "+23%");
    row (str "") (str "Value of Transactions")
        (str "MAD 1.7 billion") (str "MAD 2.1 billion") (str "+23%");
    row (str "Card-based Cash Withdrawals") (str "Number of Transactions")
        (str "360 million") (str "402 million") (str "+12%");
    row (str "") (str "Value of Transactions")
        (str "MAD 351 billion") (str "MAD 399 billion") (str "+13%") ].

Definition fallback_df : DataFrame := of_records fallback_data.

Definition page_url : text :=
  str "https://www.bkam.ma/fr/Publications-et-recherche/Publications-institutionnelles/Rapport-annuel-sur-les-infrastructures-des-marches-financiers-et-les-moyens-de-paiement-leur-surveillance-et-l-inclusion-financiere".

(** *** The outside world of one run

    What the HTTP and document libraries answer:
    - [landing url]: [requests.get], [raise_for_status], the HTML parse
      and [soup.find('select', class_='selectDownloadFile')]; an error,
      no such tag, or the [value] attribute of each of the tag's
      [option] elements in document order ([None] when an option has no
      such attribute);
    - [resolve base path]: [urljoin] of the scheme and host of [base]
      with [path];
    - [download url]: [requests.get], [raise_for_status] and
      [pypdf.PdfReader]; an error, or for each page what
      [page.extract_text()] does. *)
Record Web := {
  landing : text -> result (option (list (option text)));
  resolve : text -> text -> result text;
  download : text -> result (list (result text))
}.

(** What the run shows on the page. *)
Inductive event :=
| StError (e : exn)             (* [st.error("Failed to extract PDF text: ...")] *)
| StSuccess                     (* [st.success("Successfully scraped ...")] *)
| StDataframe (df : DataFrame)  (* [st.dataframe(bam_df, ...)] *)
| StCaption (url : text)        (* [st.caption("Source: ... [Link](url)")] *)
| StWarning.                    (* [st.warning("Could not display BAM report data.")] *)

(** [st.session_state], which outlives a run, and the page. *)
Record State := {
  session_state : gmap string text;
  shown : list event
}.

Definition show (ev : event) (st : State) : State :=
  {| session_state := session_state st; shown := shown st ++ [ev] |}.

Definition set_state (k : string) (v : text) (st : State) : State :=
  {| session_state := <[k := v]> (session_state st); shown := shown st |}.

(** *** [get_latest_report_url] *)

(** [lambda v: v and '2023' in v] *)
Definition wanted (v : option text) : bool :=
  match v with
  | Some s => truthy s && contains (str "2023") s
  | None => false
  end.

Definition get_latest_report_url (web : Web) (base_url : text) : option text :=
  match landing web base_url with
  | Return (Some option_values) =>
    match filter (fun v => wanted v = true) option_values with
    | Some pdf_path :: _ => catch (resolve web base_url pdf_path)
    | _ => None
    end
  | Return None => None
  | Raise _ => None
  end.

(** *** [extract_text_from_pdf] *)

(** The loop over [reader.pages], [full_text] being the text so far. *)
Fixpoint read_pages (pages : list (result text)) (full_text : text)
  : result text :=
  match pages with
  | [] => Return full_text
  | page :: rest =>
    page_text ← page;
    read_pages rest
      (if truthy page_text then full_text ++ Re.sub_blanks page_text
       else full_text)
  end.

Definition extract_text_from_pdf (web : Web) (pdf_url : text) (st : State)
  : State * option text :=
  match pages ← download web pdf_url; read_pages pages [] with
  | Return full_text => (st, Some full_text)
  | Raise e => (show (StError e) st, None)
  end.

(** *** [parse_payment_data] *)

Definition clean_value (val_str : text) : result float :=
  py_float (replace1 (chr ",") (str ".") (replace1 (chr " ") (str "") val_str)).

Definition pos_num_re : text :=
  str "hausse de ([\d,]+)% en nombre.*?passant de ([\d,]+) . ([\d,]+) millions d'op.rations".
Definition pos_val_re : text :=
  str "valeur de ([\d,]+) milliards de dirhams en 2023 contre ([\d,]+) milliards en 2022".
Definition mobile_re : text :=
  str "M-Wallets.*?s'est .tabli . ([\d,]+) millions contre ([\d,]+) millions d'op.rations en 2022.*?montant total de ([\d,]+) milliards contre ([\d,]+) milliard en 2022.*?hausse de (\d+)% en nombre et en valeur".

Definition float_of_int (z : Z) : float :=
  nearest (z <? 0) (Z.abs z) 1.

(** [round(((val_2023 / val_2022) - 1) * 100, 1)] *)
Definition growth_of (val_2023 val_2022 : float) : result float :=
  q ← truediv val_2023 val_2022;
  mret (py_round1 (fmul (fsub q (float_of_int 1)) (float_of_int 100))).

(** The rows of the POS rule. *)
Definition pos_rows (s : text) : result (list dict) :=
  let pos_num_pattern := Re.search pos_num_re s true in
  let pos_val_pattern := Re.search pos_val_re s true in
  match pos_num_pattern, pos_val_pattern with
  | Some num, Some val =>
    val_2023 ← clean_value (Re.group val 1);
    val_2022 ← clean_value (Re.group val 2);
    growth_val ← growth_of val_2023 val_2022;
    n_2022 ← clean_value (Re.group num 2);
    n_2023 ← clean_value (Re.group num 3);
    n_growth ← clean_value (Re.group num 1);
    mret [ row (str "POS Payments") (str "Number of Transactions")
               (format_1f n_2022 ++ str " million")
               (format_1f n_2023 ++ str " million")
               (str "+" ++ repr n_growth ++ str "%");
           row (str "") (str "Value of Transactions")
               (str "MAD " ++ format_1f val_2022 ++ str " billion")
               (str "MAD " ++ format_1f val_2023 ++ str " billion")
               (str "+" ++ repr growth_val ++ str "%") ]
  | _, _ => mret []
  end.

(** The rows of the mobile wallet rule. *)
Definition mobile_rows (s : text) : result (list dict) :=
  match Re.search mobile_re s true with
  | Some mobile_pattern =>
    g ← clean_value (Re.group mobile_pattern 5);
    let growth := str "+" ++ repr g ++ str "%" in
    n_2022 ← clean_value (Re.group mobile_pattern 2);
    n_2023 ← clean_value (Re.group mobile_pattern 1);
    v_2022 ← clean_value (Re.group mobile_pattern 4);
    v_2023 ← clean_value (Re.group mobile_pattern 3);
    mret [ row (str "Mobile Payments (M-Wallet)") (str "Number of Transactions")
               (format_1f n_2022 ++ str " million")
               (format_1f n_2023 ++ str " million") growth;
           row (str "") (str "Value of Transactions")
               (str "MAD " ++ format_1f v_2022 ++ str " billion")
               (str "MAD " ++ format_1f v_2023 ++ str " billion") growth ]
  | None => mret []
  end.

Definition parse_payment_data (s : text) : result DataFrame :=
  rows1 ← pos_rows s;
  rows2 ← mobile_rows s;
  mret (of_records (rows1 ++ rows2)).

(** *** The body of [get_bam_report_data] *)

(** The last lines: the fallback table, the landing page being recorded
    as the source unless the session already holds one. *)
Definition fall_back (st : State) : State * result DataFrame :=
  (match session_state st !! "bam_source_url"%string with
   | None => set_state "bam_source_url" page_url st
   | Some _ => st
   end,
   Return fallback_df).

Definition get_bam_report_data (web : Web) (st : State)
  : State * result DataFrame :=
  match get_latest_report_url web page_url with
  | Some latest_pdf_url =>
    if truthy latest_pdf_url then
      let st1 := set_state "bam_source_url" latest_pdf_url st in
      let '(st2, extracted) := extract_text_from_pdf web latest_pdf_url st1 in
      match extracted with
      | Some report_text =>
        if truthy report_text then
          match parse_payment_data report_text with
          | Raise e => (st2, Raise e)
          | Return parsed_df =>
            if negb (empty parsed_df)
            then (show StSuccess st2, Return parsed_df)
            else fall_back st2
          end
        else fall_back st2
      | None => fall_back st2
      end
    else fall_back st
  | None => fall_back st
  end.

(** *** The first tab of the page, on a call that runs the body *)

Definition show_tab1 (web : Web) (st : State) : State * result unit :=
  let '(st1, r) := get_bam_report_data web st in
  match r with
  | Raise e => (st1, Raise e)
  | Return bam_df =>
    if negb (empty bam_df) then
      let st2 := show (StDataframe bam_df) st1 in
      match session_state st2 !! "bam_source_url"%string with
      | Some url => (show (StCaption url) st2, Return tt)
      | None => (st2, Return tt)
      end
    else (show StWarning st1, Return tt)
  end.

End Report.

(** ** The app stores: [get_app_store_data] *)

Module Apps.
Import Pd.

(** The two registries are module-level dictionaries; the function is
    stated over any pair of registries, given as their items in order. *)
Definition registry := list (text * text).

Definition wallet_apps_android : registry :=
  [ (str "Wafa Cash (Jibi Pro)", str "com.b3g.wafacash.jibivpro");
    (str "Chaabi Pay", str "com.wallet.m2t");
    (str "Cash Plus", str "com.cashplus.mobileapp");
    (str "Damane Pay", str "co.ma.damanecash.android");
    (str "Al Barid Pay", str "ma.baridcash.saphir.baridpay");
    (str "JIBI", str "com.b3g.wafacash.jibi");
    (str "Ora", str "com.oracash");
    (str "Kenzup", str "com.kenzup.app.prod");
    (str "Lana Cash", str "com.b3g.cih.wepay");
    (str "Yassir", str "com.yatechnologies.yassir_rider");
    (str "Glovo", str "com.glovo") ].

Definition wallet_apps_ios : registry :=
  [ (str "Wafa Cash (Jibi Pro)", str "1371478054");
    (str "Chaabi Pay", str "1504267861");
    (str "Cash Plus", str "1479205181");
    (str "Damane Pay", str "1506971587");
    (str "Al Barid Pay", str "720775151");
    (str "JIBI", str "1200782472");
    (str "Ora", str "6670762251");
    (str "Kenzup", str "1518977114");
    (str "Lana Cash", str "1618148242");
    (str "Yassir", str "1239926325");
    (str "Glovo", str "951812684") ].

(** What the stores and the clock answer during one run:
    - [google_play app_id]: [app(app_id, lang='en', country='ma')];
    - [itunes url]: [requests.get(url, timeout=10).json()];
    - [local_date seconds]: the local calendar date of a POSIX time,
      [datetime.fromtimestamp(seconds).strftime('%Y-%m-%d')], or the
      error raised when the time is out of the platform's range. *)
Record Stores := {
  google_play : text -> result dict;
  itunes : text -> result value;
  local_date : Z -> result text
}.

(** The whole seconds that [datetime.fromtimestamp] takes from its
    argument.  A float is split in integral and fractional parts, the
    fraction is scaled to microseconds in floating point and rounded to
    even; a carry or a negative fraction moves the second. *)
Definition timestamp_seconds (v : value) : result Z :=
  match v with
  | PyInt z => Return z
  | PyBool b => Return (if b then 1 else 0)
  | PyFloat S754_nan => Raise ValueError
  | PyFloat (S754_infinity _) => Raise OverflowError
  | PyFloat (S754_zero _) => Return 0
  | PyFloat (S754_finite s m e) =>
    let '(num, den) := fraction m e in
    let intpart := num / den in
    let floatpart := fmul (nearest false (num mod den) den) (Report.float_of_int 1000000) in
    let us :=
      match floatpart with
      | S754_finite _ m' e' => let '(a, b) := fraction m' e' in round_half_even a b
      | _ => 0
      end in
    if s then Return (if 0 <? us then - intpart - 1 else - intpart)
    else Return (if 1000000 <=? us then intpart + 1 else intpart)
  | _ => Raise TypeError
  end.

Definition fromtimestamp_ymd (env : Stores) (v : value) : result text :=
  seconds ← timestamp_seconds v;
  local_date env seconds.

(** The body of the [try] of the Android loop. *)
Definition android_entry (env : Stores) (name app_id : text) : result dict :=
  details ← google_play env app_id;
  last_updated ← fromtimestamp_ymd env (get details (str "updated"));
  description ← slice_to 200 (get_or details (str "description") (PyStr []));
  mret [ (str "Wallet", PyStr name);
         (str "Platform", PyStr (str "Android"));
         (str "Installs", get details (str "installs"));
         (str "Score", get details (str "score"));
         (str "Ratings", get details (str "ratings"));
         (str "Last Updated", PyStr last_updated);
         (str "Description", description) ].

(** The body of the [try] of the iOS loop. *)
Definition ios_entry (env : Stores) (name app_id : text) : result dict :=
  let url := str "https://itunes.apple.com/lookup?id=" ++ app_id ++ str "&country=ma" in
  json ← itunes env url;
  results ← getitem_str json (str "results");
  first ← getitem_0 results;
  d ← as_dict first;
  last_updated ← split_first (chr "T")
                   (get_or d (str "currentVersionReleaseDate") (PyStr []));
  description ← slice_to 200 (get_or d (str "description") (PyStr []));
  mret [ (str "Wallet", PyStr name);
         (str "Platform", PyStr (str "iOS"));
         (str "Installs", PyStr (str "N/A"));
         (str "Score", get d (str "averageUserRating"));
         (str "Ratings", get d (str "userRatingCount"));
         (str "Last Updated", last_updated);
         (str "Description", description) ].

(** One of the two loops: [for name, app_id in apps.items()] with its
    [try] / [except Exception: continue]; [data] is the list being
    built. *)
Fixpoint scrape (entry : text -> text -> result dict) (apps : registry)
  (data : list dict) : list dict :=
  match apps with
  | [] => data
  | (name, app_id) :: rest =>
    match entry name app_id with
    | Return e => scrape entry rest (data ++ [e])
    | Raise _ => scrape entry rest data
    end
  end.

Definition get_app_store_data (env : Stores) (android ios : registry)
  : DataFrame :=
  let data_android := scrape (android_entry env) android [] in
  let df_android := of_records data_android in
  let data_ios := scrape (ios_entry env) ios [] in
  let df_ios := of_records data_ios in
  concat df_android df_ios.

(** *** A clock for examples: a Linux host set to UTC

    [datetime.fromtimestamp(seconds).strftime('%Y-%m-%d')] as CPython
    3.11 computes it there.  A time outside [time_t] raises
    [OverflowError], one whose year the C library cannot hold raises
    [OSError], and a year outside 1 to 9999 raises [ValueError]; the
    conversion also looks one day back, so that the first day of year 1
    is refused.  The C library prints a year below 1000 without
    padding. *)

Definition two_digits (n : Z) : text :=
  (if n <? 10 then str "0" else []) ++ digits_of_N (Z.to_N n).

Definition utc_date (seconds : Z) : result text :=
  if (seconds <? - 2 ^ 63) || (2 ^ 63 <=? seconds) then Raise OverflowError
  else if (seconds <? -67768040609740800) || (67768036191676799 <? seconds)
  then Raise OSError
  else if (seconds <? -62135510400) || (253402300799 <? seconds)
  then Raise ValueError
  else
    let z := seconds / 86400 + 719468 in
    let era := z / 146097 in
    let doe := z mod 146097 in
    let yoe := (doe - doe / 1460 + doe / 36524 - doe / 146096) / 365 in
    let doy := doe - (365 * yoe + yoe / 4 - yoe / 100) in
    let mp := (5 * doy + 2) / 153 in
    let d := doy - (153 * mp + 2) / 5 + 1 in
    let m := if mp <? 10 then mp + 3 else mp - 9 in
    let y := yoe + era * 400 + (if m <=? 2 then 1 else 0) in
    Return (digits_of_N (Z.to_N y) ++ str "-" ++ two_digits m ++ str "-" ++ two_digits d).

End Apps.

(** ** Notions used in the statements, and sample runs *)

Module Runs.
Import Pd Report.

(** The labels of the report table. *)
Definition column_labels : list text :=
  [ str "Category"; str "Metric"; str "2022"; str "2023";
    str "Growth (2022-2023)" ].

(** The source reference that the page cites. *)
Definition recorded (st : State) : option text :=
  session_state st !! "bam_source_url"%string.

(** The document URL that passes the test [if latest_pdf_url:]. *)
Definition located (web : Web) : option text :=
  match get_latest_report_url web page_url with
  | Some u => if truthy u then Some u else None
  | None => None
  end.

(** The three ways in which a run fails to produce a parsed table. *)
Inductive failure_mode (web : Web) (st : State) : Prop :=
| locator_null :
    get_latest_report_url web page_url = None ->
    failure_mode web st
| extractor_null (u : text) :
    get_latest_report_url web page_url = Some u -> truthy u = true ->
    (extract_text_from_pdf web u (set_state "bam_source_url" u st)).2 = None ->
    failure_mode web st
| parser_empty (u t : text) (df : DataFrame) :
    get_latest_report_url web page_url = Some u -> truthy u = true ->
    (extract_text_from_pdf web u (set_state "bam_source_url" u st)).2 = Some t ->
    truthy t = true ->
    parse_payment_data t = Return df -> empty df = true ->
    failure_mode web st.

(** No two adjacent blanks. *)
Fixpoint no_double_blank (s : text) : bool :=
  match s with
  | a :: ((b :: _) as s') => negb (is_space a && is_space b) && no_double_blank s'
  | _ => true
  end.

(** [x] is a binary64 number with a 53 bit mantissa, within half a unit
    in the last place of [num / den]. *)
Definition within_half_ulp (x : float) (num den : Z) : bool :=
  match x with
  | S754_finite false m e =>
    (Z.log2 (Zpos m) =? 52) && (e <? 0) &&
    (2 * Z.abs (Zpos m * den - num * 2 ^ (- e)) <=? den)
  | _ => false
  end.

Definition starts_blank (s : text) : bool :=
  match s with c :: _ => is_space c | [] => false end.

(** A document of two pages, the first ending and the second starting
    with a blank. *)
Definition two_pages : list text := [str "Rapport annuel "; str " Bank Al-Maghrib"].

(** A site that cannot be reached. *)
Definition web_down : Web :=
  {| landing := fun _ => Raise RequestError;
     resolve := fun _ _ => Raise RequestError;
     download := fun _ => Raise RequestError |}.

(** A site whose landing page offers one 2023 document, made of the
    given pages. *)
Definition report_path : text := str "/sites/default/files/2023/rapport.pdf".
Definition report_url : text := str "https://www.bkam.ma" ++ report_path.

Definition web_serving (pages : list (result text)) : Web :=
  {| landing := fun _ => Return (Some [None; Some (str "/archives/2021.pdf"); Some report_path]);
     resolve := fun _ path => Return (str "https://www.bkam.ma" ++ path);
     download := fun _ => Return pages |}.

(** A session that starts. *)
Definition new_session : State := {| session_state := ∅; shown := [] |}.

(** The session after a first run against a site that serves a document
    in which no rule matches. *)
Definition second_session : State :=
  (get_bam_report_data (web_serving [Return (str "Rapport annuel")]) new_session).1.

(** Report prose: the two sentences of the POS rule. *)
Definition pos_sentence : text :=
  str "Le paiement par carte a connu une hausse de 23% en nombre, passant de 106,4 à 131,3 millions d'opérations, pour une valeur de 46,9 milliards de dirhams en 2023 contre 39,2 milliards en 2022.".

(** The same with a prior value of zero, and with a stray comma in a
    number. *)
Definition zero_prior_sentence : text :=
  str "Le paiement par carte a connu une hausse de 23% en nombre, passant de 106,4 à 131,3 millions d'opérations, pour une valeur de 46,9 milliards de dirhams en 2023 contre 0 milliards en 2022.".

Definition mobile_sentence : text :=
  str "Pour les M-Wallets, le nombre de transactions s'est établi à 9,7 millions contre 7,9 millions d'opérations en 2022, pour un montant total de 2,1 milliards contre 1,7 milliard en 2022, soit une hausse de 23% en nombre et en valeur.".

Definition stray_comma_sentence : text :=
  str "Le paiement par carte a connu une hausse de 23% en nombre, passant de 106,4 à 131,3 millions d'opérations, pour une valeur de 46,9 milliards de dirhams en 2023 contre 39,2,0 milliards en 2022.".

End Runs.

Module Aggregate.
Import Pd Apps.

(** The two platforms of the aggregation. *)
Inductive platform := Android | IOS.

Definition platform_name (p : platform) : text :=
  match p with Android => str "Android" | IOS => str "iOS" end.

(** The guarded block of a platform's loop. *)
Definition attempt (env : Stores) (p : platform) : text -> text -> result dict :=
  match p with Android => android_entry env | IOS => ios_entry env end.

(** The entries of the pairs of a registry whose block does not raise. *)
Definition successes (env : Stores) (p : platform) (reg : registry) : list dict :=
  omap (fun item => catch (attempt env p item.1 item.2)) reg.

(** A run in which [reg] is the registry of platform [p]. *)
Definition run (env : Stores) (p : platform) (reg other : registry) : DataFrame :=
  match p with
  | Android => get_app_store_data env reg other
  | IOS => get_app_store_data env other reg
  end.

Definition opposite (p : platform) : platform :=
  match p with Android => IOS | IOS => Android end.

(** A row of the table that belongs to a wallet on a platform. *)
Definition row_for (wallet : text) (p : platform) (r : list value) : Prop :=
  exists rest, r = PyStr wallet :: PyStr (platform_name p) :: rest.

Definition entry_labels : list text :=
  [ str "Wallet"; str "Platform"; str "Installs"; str "Score"; str "Ratings";
    str "Last Updated"; str "Description" ].

(** The pairs of a registry whose guarded block does not raise. *)
Definition succeeded (env : Stores) (p : platform) (reg : registry) : registry :=
  filter (fun item => returns (attempt env p item.1 item.2) = true) reg.

(** The label of a row: its first two cells, Wallet and Platform, and
    the label that a pair gives to its row. *)
Definition labels (df : DataFrame) : list (list value) := map (take 2) (rows df).

Definition label (p : platform) (item : text * text) : list value :=
  [PyStr item.1; PyStr (platform_name p)].

(** Store answers for examples: one app with full details, one whose
    details lack the update time, every other Android query failing;
    one iOS lookup that succeeds. *)
Definition glovo_details : dict :=
  [ (str "installs", PyStr (str "50,000,000+"));
    (str "score", PyFloat (S754_finite false 4953959590107546 (-50)));
    (str "ratings", PyInt 1523411);
    (str "updated", PyInt 1709251200);
    (str "description", PyStr (str "Glovo: livraison de repas et de courses")) ].

Definition ora_details : dict :=
  [ (str "installs", PyStr (str "100,000+"));
    (str "score", PyNone);
    (str "ratings", PyInt 812);
    (str "description", PyStr (str "Ora Cash")) ].

Definition glovo_lookup : value :=
  PyDict [ (str "resultCount", PyInt 1);
           (str "results",
            PyList [ PyDict [ (str "averageUserRating", PyFloat (S754_finite false 5179139571476070 (-50)));
                              (str "userRatingCount", PyInt 20417);
                              (str "currentVersionReleaseDate", PyStr (str "2024-02-27T08:12:45Z"));
                              (str "description", PyStr (str "Glovo")) ] ]) ].

Definition sample_stores : Stores :=
  {| google_play := fun app_id =>
       if decide (app_id = str "com.glovo") then Return glovo_details
       else if decide (app_id = str "com.oracash") then Return ora_details
       else Raise RequestError;
     itunes := fun url =>
       if decide (url = str "https://itunes.apple.com/lookup?id=951812684&country=ma")
       then Return glovo_lookup
       else Raise RequestError;
     local_date := utc_date |}.

End Aggregate.

(** ** Notions for the outcomes of the parser, of a run and of the
    aggregation *)

Module Tokens.
Import Re.

(** The sets of the groups of a pattern in which every group holds one
    greedy repetition, [(x+)]; [None] for any other use of groups. *)
Fixpoint group_sets (re : regex) : option (list cset) :=
  match re with
  | [] => Some []
  | Open :: Plus cs :: Close :: rest => cons cs <$> group_sets rest
  | Open :: _ => None
  | Close :: _ => None
  | _ :: rest => group_sets rest
  end.

(** A captured text: not empty, made of characters of the set. *)
Definition captured (ic : bool) (g : text) (cs : cset) : Prop :=
  g <> [] /\ Forall (fun c => accepts ic cs c = true) g.

(** Digits and commas, at least one character; digits only. *)
Definition numeral_token (g : text) : Prop :=
  g <> [] /\ Forall (fun c => is_digit c = true \/ c = chr ",") g.

Definition digit_token (g : text) : Prop :=
  g <> [] /\ Forall (fun c => is_digit c = true) g.

End Tokens.

Module Numerals.
Import Report.
Local Open Scope Z_scope.

(** Characters of a number once its commas are points. *)
Definition plain (c : char) : Prop := is_digit c = true \/ c = chr ".".

Definition commas (g : text) : nat := length (filter (fun c => c = chr ",") g).

Definition digit_count (g : text) : nat :=
  length (filter (fun c => is_digit c = true) g).

(** The number of characters after the first comma. *)
Definition decimals (g : text) : nat :=
  (length g - length (before (chr ",") g) - 1)%nat.

(** The float that a numeral with at most one comma denotes. *)
Definition numeral_value (g : text) : float :=
  of_decimal false (N_of_digits (filter (fun c => is_digit c = true) g))
    (- Z.of_nat (decimals g)).


(** Runs of digits, and of digits and commas. *)
Definition digits (s : text) : Prop := Forall (fun c => is_digit c = true) s.
Definition digits_commas (s : text) : Prop :=
  Forall (fun c => is_digit c = true \/ c = chr ",") s.

(** A numeral that [float] accepts once its comma is a point: at most
    one comma, at least one digit. *)
Definition token_ok (g : text) : bool :=
  bool_decide ((commas g <= 1)%nat /\ (1 <= digit_count g)%nat).

End Numerals.

Module Outcomes.
Import Pd Report Runs.

(** The first error among the pages of a document. *)
Fixpoint first_error (pages : list (result text)) : option exn :=
  match pages with
  | [] => None
  | Raise e :: _ => Some e
  | Return _ :: rest => first_error rest
  end.

(** What a run adds to the page. *)
Definition messages (web : Web) (st : State) : list event :=
  drop (length (shown st)) (shown (get_bam_report_data web st).1).

(** The reference recorded by a run that starts with the session [m]. *)
Definition reference_after (web : Web) (m : gmap string text) : text :=
  match located web with
  | Some u => u
  | None => default page_url (m !! "bam_source_url"%string)
  end.

Definition not_blank (c : char) : Prop := is_space c = false.

End Outcomes.

(** ** The cache in front of [get_bam_report_data]

    [@st.cache_data(ttl=86400)]: the function has no argument, so the
    cache holds at most one entry, the table that the last run of the
    body returned together with the messages that this run showed.  The
    cache belongs to the server and is shared by the sessions, while
    [st.session_state] belongs to one session.  An entry leaves the
    cache when its time to live is over or when the Refresh button
    clears the cache; a run that raises stores nothing. *)

Module Cache.
Import Pd Report Runs Outcomes.

Record entry := { table : DataFrame; replayed : list event }.

Definition cache := option entry.

(** A call of the cached function.  On a hit the body does not run: the
    stored messages are shown again and the stored table is returned;
    the session state is not touched. *)
Definition cached_get_bam_report_data (web : Web) (c : cache) (st : State)
  : cache * State * result DataFrame :=
  match c with
  | Some e =>
    (c, {| session_state := session_state st; shown := shown st ++ replayed e |},
     Return (table e))
  | None =>
    let '(st1, r) := get_bam_report_data web st in
    match r with
    | Return df => (Some {| table := df; replayed := messages web st |}, st1, r)
    | Raise _ => (None, st1, r)
    end
  end.

(** The first tab of the page. *)
Definition tab1 (web : Web) (c : cache) (st : State) : cache * State * result unit :=
  let '(c1, st1, r) := cached_get_bam_report_data web c st in
  match r with
  | Raise e => (c1, st1, Raise e)
  | Return bam_df =>
    if negb (empty bam_df) then
      let st2 := show (StDataframe bam_df) st1 in
      match session_state st2 !! "bam_source_url"%string with
      | Some url => (c1, show (StCaption url) st2, Return tt)
      | None => (c1, st2, Return tt)
      end
    else (c1, show StWarning st1, Return tt)
  end.

(** What a visit served from the cache adds to the page of a session:
    the stored messages, the table, and the caption when the session
    holds a reference. *)
Definition served (e : entry) (st : State) : State :=
  let st1 := {| session_state := session_state st; shown := shown st ++ replayed e |} in
  let st2 := show (StDataframe (table e)) st1 in
  match session_state st !! "bam_source_url"%string with
  | Some url => show (StCaption url) st2
  | None => st2
  end.

End Cache.

Module Lookups.
Import Pd Apps Aggregate.

(** The wallet that a row of the table belongs to. *)
Definition row_wallet (r : list value) : option text :=
  match r with
  | PyStr w :: _ => Some w
  | _ => None
  end.

(** A lookup reply whose first result has neither a release date nor a
    description, and one whose release date is null. *)
Definition bare_lookup : value :=
  PyDict [ (str "resultCount", PyInt 1);
           (str "results", PyList [ PyDict [ (str "userRatingCount", PyInt 7) ] ]) ].

Definition null_date_lookup : value :=
  PyDict [ (str "resultCount", PyInt 1);
           (str "results",
            PyList [ PyDict [ (str "currentVersionReleaseDate", PyNone);
                              (str "description", PyStr (str "Ora")) ] ]) ].

(** Store details that hold the update time and nothing else. *)
Definition updated_only : dict := [ (str "updated", PyInt 1709251200) ].

(** Stores that give the same answers for every app. *)
Definition stores_answering (reply : value) : Stores :=
  {| google_play := fun _ => Return updated_only;
     itunes := fun _ => Return reply;
     local_date := utc_date |}.

End Lookups.

(** * Properties *)

(** ** Sequencing of calls that may raise *)

Lemma bind_Return {A B} (a : A) (k : A -> result B) : (Return a ≫= k) = k a.
Proof. reflexivity. Qed.

Lemma bind_Raise {A B} (e : exn) (k : A -> result B) : (Raise e ≫= k) = Raise e.
Proof. reflexivity. Qed.

(** Run the first call of a sequence, in both of its outcomes. *)
Ltac run_bind :=
  match goal with
  | |- context [mbind _ ?m] =>
    lazymatch m with
    | context [mbind] => fail
    | _ => destruct m; rewrite ?bind_Return, ?bind_Raise
    end
  end.

(** ** Tables built from records that share their keys *)

Section TableFacts.
Import Pd.

Lemma lookup_key_fresh (k : text) (v : value) (c : text) (r : dict) :
  c ≠ k -> lookup_key c ((k, v) :: r) = lookup_key c r.
Proof.
  intros Hne. simpl. destruct (decide (k = c)) as [->|_]; [done|reflexivity].
Qed.

Lemma align_own_keys (r : dict) : NoDup (keys r) -> align (keys r) r = map snd r.
Proof.
  unfold align. induction r as [|[k v] r IH]; intros Hnd; [reflexivity|].
  apply NoDup_cons in Hnd as [Hk Hnd].
  change (keys ((k, v) :: r)) with (k :: keys r).
  change (map snd ((k, v) :: r)) with (v :: map snd r).
  rewrite map_cons. f_equal.
  - simpl. by destruct (decide (k = k)).
  - rewrite <- (IH Hnd). apply map_ext_in. intros c Hc.
    rewrite lookup_key_fresh; [reflexivity|].
    intros ->. apply Hk. by apply list_elem_of_In.
Qed.

Lemma union_keys_fresh (cols ks : list text) :
  NoDup (cols ++ ks) -> union_keys cols ks = cols ++ ks.
Proof.
  unfold union_keys. revert cols. induction ks as [|k ks IH]; intros cols Hnd.
  - by rewrite app_nil_r.
  - simpl. unfold add_key at 2.
    apply NoDup_app in Hnd as (Hc & Hdisj & Hks).
    destruct (decide (k ∈ cols)) as [Hin|_].
    { exfalso. apply (Hdisj k Hin). left. }
    rewrite IH.
    + by rewrite <- app_assoc.
    + rewrite <- app_assoc. simpl. apply NoDup_app. split_and!; done.
Qed.

Lemma union_keys_known (cols ks : list text) :
  ks ⊆ cols -> union_keys cols ks = cols.
Proof.
  unfold union_keys. induction ks as [|k ks IH]; intros Hsub; [reflexivity|].
  simpl. unfold add_key at 2. destruct (decide (k ∈ cols)) as [_|Hn].
  - apply IH. set_solver.
  - exfalso. apply Hn. set_solver.
Qed.

Lemma columns_uniform (ks : list text) (recs : list dict) :
  Forall (fun r => keys r = ks) recs ->
  foldl (fun cols r => union_keys cols (keys r)) ks recs = ks.
Proof.
  induction 1 as [|r recs Hr _ IH]; [reflexivity|].
  simpl. rewrite Hr, union_keys_known; [exact IH|set_solver].
Qed.

(** Records with the same keys [ks] give a table with the columns [ks]
    and one row per record, holding the record's values. *)
Lemma of_records_uniform (ks : list text) (r : dict) (recs : list dict) :
  NoDup ks ->
  Forall (fun r => keys r = ks) (r :: recs) ->
  of_records (r :: recs) = {| columns := ks; rows := map (map snd) (r :: recs) |}.
Proof.
  intros Hnd Hall. unfold of_records.
  assert (Hcols : foldl (fun cols r => union_keys cols (keys r)) [] (r :: recs) = ks).
  { apply Forall_cons in Hall as [Hr Hrest]. simpl.
    rewrite union_keys_fresh by (simpl; by rewrite Hr).
    simpl. rewrite Hr. by apply columns_uniform. }
  rewrite Hcols. f_equal.
  apply map_ext_in. intros x Hx.
  rewrite Forall_forall in Hall.
  assert (Hkx : keys x = ks) by (apply Hall; by apply list_elem_of_In).
  rewrite <- Hkx. apply align_own_keys. by rewrite Hkx.
Qed.

Lemma of_records_nil : of_records [] = {| columns := []; rows := [] |}.
Proof. reflexivity. Qed.

Lemma zip_own_keys (r : dict) : record_of (keys r) (map snd r) = r.
Proof.
  unfold record_of, keys. induction r as [|[k v] r IH]; [reflexivity|].
  simpl. by rewrite IH.
Qed.

End TableFacts.

(** ** The report run *)

Section ReportFacts.
Import Pd Report Runs.

Lemma column_labels_nodup : NoDup column_labels.
Proof. apply (bool_decide_unpack _). by vm_compute. Qed.

Lemma keys_row (c m a b g : text) : keys (row c m a b g) = column_labels.
Proof. reflexivity. Qed.

Lemma fallback_df_eq :
  fallback_df = {| columns := column_labels; rows := map (map snd) fallback_data |}.
Proof.
  unfold fallback_df, fallback_data.
  apply of_records_uniform; [apply column_labels_nodup|].
  repeat (apply Forall_cons; split; [apply keys_row|]). by apply Forall_nil.
Qed.


Lemma pos_rows_keys (s : text) (rs : list dict) :
  pos_rows s = Return rs -> Forall (fun r => keys r = column_labels) rs.
Proof.
  unfold pos_rows.
  destruct (Re.search pos_num_re s true) as [num|];
    destruct (Re.search pos_val_re s true) as [val|];
    try (intros [= <-]; by apply Forall_nil).
  repeat run_bind; try discriminate.
  intros [= <-]. repeat (apply Forall_cons; split; [apply keys_row|]). by apply Forall_nil.
Qed.

Lemma mobile_rows_keys (s : text) (rs : list dict) :
  mobile_rows s = Return rs -> Forall (fun r => keys r = column_labels) rs.
Proof.
  unfold mobile_rows.
  destruct (Re.search mobile_re s true) as [m|];
    try (intros [= <-]; by apply Forall_nil).
  repeat run_bind; try discriminate.
  intros [= <-]. repeat (apply Forall_cons; split; [apply keys_row|]). by apply Forall_nil.
Qed.

(** A parsed table that is not empty has the five labels as columns. *)
Lemma parsed_columns (s : text) (df : DataFrame) :
  parse_payment_data s = Return df -> empty df = false ->
  columns df = column_labels.
Proof.
  unfold parse_payment_data.
  destruct (pos_rows s) as [rows1|] eqn:H1; [|discriminate].
  destruct (mobile_rows s) as [rows2|] eqn:H2; [|discriminate].
  rewrite !bind_Return. intros [= <-] Hne.
  apply pos_rows_keys in H1. apply mobile_rows_keys in H2.
  assert (Hall : Forall (fun r => keys r = column_labels) (rows1 ++ rows2))
    by (apply Forall_app; done).
  destruct (rows1 ++ rows2) as [|r recs]; [discriminate|].
  rewrite (of_records_uniform column_labels); [reflexivity|apply column_labels_nodup|done].
Qed.

Lemma extract_keeps_session (web : Web) (u : text) (st : State) :
  session_state (extract_text_from_pdf web u st).1 = session_state st.
Proof.
  unfold extract_text_from_pdf.
  destruct (_ ← download web u; _); reflexivity.
Qed.

Lemma fall_back_recorded (st : State) :
  recorded (fall_back st).1 = Some (default page_url (recorded st)).
Proof.
  unfold fall_back, recorded. simpl.
  destruct (session_state st !! "bam_source_url"%string) eqn:H; simpl.
  - by rewrite H.
  - apply lookup_insert_eq.
Qed.

(** The three outcomes of a run. *)
Lemma run_outcomes (web : Web) (st : State) :
  (get_bam_report_data web st).2 = Return fallback_df
  \/ (exists t df, parse_payment_data t = Return df /\ empty df = false
                   /\ (get_bam_report_data web st).2 = Return df)
  \/ (exists t e, parse_payment_data t = Raise e
                  /\ (get_bam_report_data web st).2 = Raise e).
Proof.
  unfold get_bam_report_data.
  destruct (get_latest_report_url web page_url) as [u|]; [|by left].
  destruct (truthy u); [|by left].
  destruct (extract_text_from_pdf _ _ _) as [st2 [t|]]; [|by left].
  destruct (truthy t); [|by left].
  destruct (parse_payment_data t) as [df|e] eqn:Hp.
  - destruct (empty df) eqn:He; [by left|].
    right; left. by exists t, df.
  - right; right. by exists t, e.
Qed.

(** C1. In a run in which the locator returns null, or the extractor
    returns null, or the parser returns an empty table, the function
    returns the fixed fallback table; that table has the columns
    Category, Metric, 2022, 2023, Growth (2022-2023), which are also the
    columns of every parsed table that is not empty. *)
Theorem fallback_table_on_failure (web : Web) (st : State) :
  failure_mode web st ->
  (get_bam_report_data web st).2 = Return fallback_df
  /\ columns fallback_df = column_labels
  /\ forall s df, parse_payment_data s = Return df -> empty df = false ->
                  columns df = columns fallback_df.
Proof.
  intros Hfail. split; [|split].
  - unfold get_bam_report_data.
    destruct Hfail as [Hloc | u Hloc Hu Hex | u t df Hloc Hu Hex Ht Hp He];
      rewrite Hloc; [reflexivity| |]; rewrite Hu; cbv beta iota zeta;
      destruct (extract_text_from_pdf _ _ _) as [st2 ex]; simpl in Hex; subst ex.
    + reflexivity.
    + rewrite Ht, Hp, He. reflexivity.
  - by rewrite fallback_df_eq.
  - intros s df Hp He. rewrite fallback_df_eq. cbn [columns]. by apply (parsed_columns s).
Qed.

Lemma fallback_table_on_failure_witness :
  (get_bam_report_data web_down new_session).2 = Return fallback_df
  /\ columns fallback_df = column_labels
  /\ forall s df, parse_payment_data s = Return df -> empty df = false ->
                  columns df = columns fallback_df.
Proof.
  apply (fallback_table_on_failure web_down new_session).
  apply locator_null. reflexivity.
Defined.

(** The other two failure modes, on a document that cannot be read and
    on one in which no rule matches. *)
Lemma failure_modes_occur :
  failure_mode (web_serving [Raise RequestError]) new_session
  /\ failure_mode (web_serving [Return (str "Rapport annuel")]) new_session.
Proof.
  split.
  - apply (extractor_null _ _ report_url); by vm_compute.
  - apply (parser_empty _ _ report_url (str "Rapport annuel") (of_records []));
      by vm_compute.
Qed.

(** A run that succeeds returns the parsed table and cites the
    document. *)
Lemma successful_run_example :
  (get_bam_report_data (web_serving [Return pos_sentence]) new_session).2
    = Return {| columns := column_labels;
                rows := [ [ PyStr (str "POS Payments"); PyStr (str "Number of Transactions");
                            PyStr (str "106.4 million"); PyStr (str "131.3 million");
                            PyStr (str "+23.0%") ];
                          [ PyStr (str ""); PyStr (str "Value of Transactions");
                            PyStr (str "MAD 39.2 billion"); PyStr (str "MAD 46.9 billion");
                            PyStr (str "+19.6%") ] ] |}
  /\ recorded (get_bam_report_data (web_serving [Return pos_sentence]) new_session).1
     = Some report_url.
Proof. split; by vm_compute. Qed.

(** C2, amended. After a run the recorded source reference is the
    located document URL when the locator returned one, whatever
    extraction and parsing then did; when the locator returned none it
    is the reference the session already held, and the landing page URL
    only if the session held none. *)
Theorem source_reference_after_run (web : Web) (st : State) :
  recorded (get_bam_report_data web st).1 =
  Some (match located web with
        | Some u => u
        | None => default page_url (recorded st)
        end).
Proof.
  unfold located, get_bam_report_data.
  destruct (get_latest_report_url web page_url) as [u|]; [|apply fall_back_recorded].
  destruct (truthy u); [|apply fall_back_recorded].
  pose proof (extract_keeps_session web u (set_state "bam_source_url" u st)) as Hs.
  destruct (extract_text_from_pdf _ _ _) as [st2 ex]. simpl in Hs.
  assert (Hrec : recorded st2 = Some u).
  { unfold recorded. rewrite Hs. apply lookup_insert_eq. }
  assert (Hfb : recorded (fall_back st2).1 = Some u).
  { rewrite fall_back_recorded, Hrec. reflexivity. }
  destruct ex as [t|]; [|exact Hfb].
  destruct (truthy t); [|exact Hfb].
  destruct (parse_payment_data t) as [df|e]; [|exact Hrec].
  destruct (empty df); [exact Hfb|exact Hrec].
Qed.

(** A second run in the same session.  The first run located the
    document and recorded its URL; the site is then down, the locator
    returns nothing, and the reference stays the document URL instead of
    becoming the landing page URL. *)
Lemma stale_reference_kept :
  recorded second_session = Some report_url
  /\ get_latest_report_url web_down page_url = None
  /\ recorded (get_bam_report_data web_down second_session).1 = Some report_url
  /\ report_url <> page_url.
Proof.
  split; [by vm_compute|]. split; [reflexivity|]. split.
  - by vm_compute.
  - vm_compute. discriminate.
Qed.

(** C3, at a failing input. The landing page and the document are
    served, the report states a prior value of zero: the division of
    [parse_payment_data] raises [ZeroDivisionError], which nothing
    handles, and [get_bam_report_data] raises it to its caller.  A
    number with a stray comma makes [float] raise [ValueError] in the
    same way. *)
Lemma zero_prior_raises :
  (get_bam_report_data (web_serving [Return zero_prior_sentence]) new_session).2
    = Raise ZeroDivisionError
  /\ parse_payment_data zero_prior_sentence = Raise ZeroDivisionError
  /\ parse_payment_data stray_comma_sentence = Raise ValueError.
Proof. vm_compute. auto. Qed.

Lemma fallback_not_empty : empty fallback_df = false.
Proof. rewrite fallback_df_eq. reflexivity. Qed.



Lemma fall_back_shown (st : State) : shown (fall_back st).1 = shown st.
Proof. unfold fall_back. simpl. by destruct (session_state st !! _). Qed.




End ReportFacts.

(** ** The parser *)

Section ParserFacts.
Import Pd Report Runs.
Local Open Scope Z_scope.

(** The three patterns belong to the fragment that [Re.compile] reads. *)
Lemma patterns_compile :
  is_Some (Re.compile pos_num_re) /\ is_Some (Re.compile pos_val_re)
  /\ is_Some (Re.compile mobile_re).
Proof. vm_compute. repeat split; eauto. Qed.

Lemma pos_num_groups :
  Re.search pos_num_re pos_sentence true = Some [str "23"; str "106,4"; str "131,3"].
Proof. vm_compute. reflexivity. Qed.

Lemma mobile_rule_example :
  mobile_rows mobile_sentence =
  Return [ row (str "Mobile Payments (M-Wallet)") (str "Number of Transactions")
               (str "7.9 million") (str "9.7 million") (str "+23.0%");
           row (str "") (str "Value of Transactions")
               (str "MAD 1.7 billion") (str "MAD 2.1 billion") (str "+23.0%") ].
Proof. vm_compute. reflexivity. Qed.

(** C4. With [value_current = 46.9] and [value_prior = 39.2] the growth
    computation [round((46.9 / 39.2 - 1) * 100, 1)] yields the float
    19.6: the binary64 number nearest to 196/10, printed "19.6". *)
Theorem pos_value_growth :
  (val_2023 ← py_float (str "46.9");
   val_2022 ← py_float (str "39.2");
   growth_of val_2023 val_2022) = py_float (str "19.6")
  /\ py_float (str "19.6") = Return (S754_finite false 5516909543528858 (-48))
  /\ within_half_ulp (S754_finite false 5516909543528858 (-48)) 196 10 = true
  /\ repr (S754_finite false 5516909543528858 (-48)) = str "19.6".
Proof. vm_compute. auto. Qed.

(** C5. [clean_value] maps "131,3" to the float 131.3 (the binary64
    number within half a unit in the last place of 1313/10) and
    "1 234,5" to 1234.5 (exactly 12345/10): the spaces are removed and
    the comma becomes the decimal point before the conversion. *)
Theorem clean_value_examples :
  clean_value (str "131,3") = Return (S754_finite false 4619708055263642 (-45))
  /\ within_half_ulp (S754_finite false 4619708055263642 (-45)) 1313 10 = true
  /\ clean_value (str "1 234,5") = Return (S754_finite false 5429388417957888 (-42))
  /\ 5429388417957888 * 10 = 12345 * 2 ^ 42
  /\ clean_value (str "131,3") = py_float (str "131.3")
  /\ clean_value (str "1 234,5") = py_float (str "1234.5").
Proof. vm_compute. repeat split; reflexivity. Qed.

(** C6, amended. The POS rule returns rows exactly as follows.  If one
    of its two patterns does not match it returns no row.  If both
    match, it returns its two rows when the five captured numbers are
    accepted by [clean_value] and the prior value is not zero; the count
    row then shows the growth read from the text, the value row the
    growth [round((value_current / value_prior - 1) * 100, 1)] computed
    from the two values alone. *)
Theorem pos_rule (s : text) (rows : list dict) :
  pos_rows s = Return rows <->
  match Re.search pos_num_re s true, Re.search pos_val_re s true with
  | Some num, Some val =>
    exists growth n_2022 n_2023 val_2023 val_2022 : float,
      clean_value (Re.group num 1) = Return growth
      /\ clean_value (Re.group num 2) = Return n_2022
      /\ clean_value (Re.group num 3) = Return n_2023
      /\ clean_value (Re.group val 1) = Return val_2023
      /\ clean_value (Re.group val 2) = Return val_2022
      /\ is_zero val_2022 = false
      /\ rows =
         [ row (str "POS Payments") (str "Number of Transactions")
               (format_1f n_2022 ++ str " million")
               (format_1f n_2023 ++ str " million")
               (str "+" ++ repr growth ++ str "%");
           row (str "") (str "Value of Transactions")
               (str "MAD " ++ format_1f val_2022 ++ str " billion")
               (str "MAD " ++ format_1f val_2023 ++ str " billion")
               (str "+"
                ++ repr (py_round1
                           (fmul (fsub (SFdiv prec emax val_2023 val_2022)
                                       (float_of_int 1))
                                 (float_of_int 100)))
                ++ str "%") ]
  | _, _ => rows = []
  end.
Proof.
  unfold pos_rows.
  destruct (Re.search pos_num_re s true) as [num|];
    destruct (Re.search pos_val_re s true) as [val|];
    try (split; [by intros [= <-]|by intros ->]).
  unfold growth_of, truediv.
  split.
  - destruct (clean_value (Re.group val 1)) as [v23|]; rewrite ?bind_Return, ?bind_Raise; [|discriminate].
    destruct (clean_value (Re.group val 2)) as [v22|]; rewrite ?bind_Return, ?bind_Raise; [|discriminate].
    destruct (is_zero v22) eqn:Hz; rewrite ?bind_Return, ?bind_Raise; [discriminate|].
    destruct (clean_value (Re.group num 2)) as [n22|]; rewrite ?bind_Return, ?bind_Raise; [|discriminate].
    destruct (clean_value (Re.group num 3)) as [n23|]; rewrite ?bind_Return, ?bind_Raise; [|discriminate].
    destruct (clean_value (Re.group num 1)) as [g|]; rewrite ?bind_Return, ?bind_Raise; [|discriminate].
    intros [= <-]. exists g, n22, n23, v23, v22. by repeat split.
  - intros (g & n22 & n23 & v23 & v22 & -> & -> & -> & -> & -> & Hz & ->).
    rewrite !bind_Return, Hz, !bind_Return. reflexivity.
Qed.

Lemma pos_rule_example :
  pos_rows pos_sentence =
  Return [ row (str "POS Payments") (str "Number of Transactions")
               (str "106.4 million") (str "131.3 million") (str "+23.0%");
           row (str "") (str "Value of Transactions")
               (str "MAD 39.2 billion") (str "MAD 46.9 billion") (str "+19.6%") ].
Proof. vm_compute. reflexivity. Qed.

(** Both patterns match a text whose prior value reads "39,2,0"; the
    rule emits no row, the conversion of that number raises. *)
Lemma pos_rule_raises :
  is_Some (Re.search pos_num_re stray_comma_sentence true)
  /\ is_Some (Re.search pos_val_re stray_comma_sentence true)
  /\ pos_rows stray_comma_sentence = Raise ValueError
  /\ parse_payment_data stray_comma_sentence = Raise ValueError.
Proof. vm_compute. repeat split; eauto. Qed.

End ParserFacts.

(** ** Text extraction *)

Section ExtractFacts.
Import Pd Report Runs.

Lemma no_double_blank_cons (c : char) (s : text) :
  no_double_blank (c :: s) = negb (is_space c && starts_blank s) && no_double_blank s.
Proof. destruct s; simpl; [by rewrite andb_false_r|reflexivity]. Qed.

(** Within one page no two blanks are adjacent after the substitution,
    and the text that follows a blank does not start with one. *)
Lemma sub_blanks_from_spec (in_run : bool) (s : text) :
  no_double_blank (Re.sub_blanks_from in_run s) = true
  /\ (in_run = true -> starts_blank (Re.sub_blanks_from in_run s) = false).
Proof.
  revert in_run. induction s as [|c s IH]; intros in_run; [by split|].
  cbn [Re.sub_blanks_from].
  destruct (is_space c) eqn:Hc.
  - destruct (IH true) as [Hnd Hst]. destruct in_run; simpl app.
    + split; [exact Hnd|]. intros _. by apply Hst.
    + split; [|discriminate].
      rewrite no_double_blank_cons, Hnd, Hst by done. reflexivity.
  - destruct (IH false) as [Hnd _]. split.
    + rewrite no_double_blank_cons, Hc, Hnd. reflexivity.
    + intros _. simpl. exact Hc.
Qed.

Lemma sub_blanks_only_spaces (in_run : bool) (s : text) :
  Forall (fun c => is_space c = true -> c = chr " ") (Re.sub_blanks_from in_run s).
Proof.
  revert in_run. induction s as [|c s IH]; intros in_run; [by apply Forall_nil|].
  cbn [Re.sub_blanks_from]. destruct (is_space c) eqn:Hc.
  - destruct in_run; simpl app; [apply IH|].
    apply Forall_cons. split; [done|apply IH].
  - apply Forall_cons. split; [|apply IH]. by rewrite Hc.
Qed.

(** The loop appends the pages' texts, each with its blanks replaced. *)
Lemma read_pages_all (pages : list text) (full_text : text) :
  read_pages (map Return pages) full_text
  = Return (full_text ++ mjoin (map Re.sub_blanks pages)).
Proof.
  revert full_text. induction pages as [|p pages IH]; intros full_text.
  - simpl. by rewrite app_nil_r.
  - cbn [map read_pages]. rewrite bind_Return, IH.
    destruct p as [|c p]; cbn [truthy].
    + reflexivity.
    + cbn [mjoin list_join]. by rewrite app_assoc.
Qed.

(** A page whose text cannot be extracted makes the loop raise. *)
Lemma read_pages_raise (before : list text) (e : exn) (after : list (result text))
  (full_text : text) :
  read_pages (map Return before ++ Raise e :: after) full_text = Raise e.
Proof.
  revert full_text. induction before as [|p before IH]; intros full_text; [reflexivity|].
  cbn [map app read_pages]. rewrite bind_Return. apply IH.
Qed.

(** C8, amended. When every page of the document yields its text, the
    returned string is the concatenation, in page order and with
    nothing in between, of the pages' texts in each of which every run
    of blanks has become one space: inside the part that comes from one
    page no two blanks are adjacent, and every blank is a space. *)
Theorem extracted_text_is_pagewise (web : Web) (pdf_url : text) (st : State)
  (pages : list text) :
  download web pdf_url = Return (map Return pages) ->
  (extract_text_from_pdf web pdf_url st).2
    = Some (mjoin (map Re.sub_blanks pages))
  /\ Forall (fun p => no_double_blank (Re.sub_blanks p) = true
                      /\ Forall (fun c => is_space c = true -> c = chr " ")
                                (Re.sub_blanks p)) pages.
Proof.
  intros Hd. split.
  - unfold extract_text_from_pdf. rewrite Hd, bind_Return, read_pages_all. reflexivity.
  - apply Forall_forall. intros p _. split.
    + apply sub_blanks_from_spec.
    + apply sub_blanks_only_spaces.
Qed.

Lemma extracted_text_is_pagewise_witness :
  (extract_text_from_pdf (web_serving (map Return two_pages)) report_url new_session).2
    = Some (mjoin (map Re.sub_blanks two_pages))
  /\ Forall (fun p => no_double_blank (Re.sub_blanks p) = true
                      /\ Forall (fun c => is_space c = true -> c = chr " ")
                                (Re.sub_blanks p)) two_pages.
Proof.
  apply (extracted_text_is_pagewise (web_serving (map Return two_pages)) report_url
           new_session two_pages).
  reflexivity.
Defined.

(** Two pages, one ending and the next starting with a blank: the
    returned string has two adjacent spaces, which collapsing the runs
    of the whole text would not leave. *)
Lemma page_boundary_blanks :
  (extract_text_from_pdf (web_serving (map Return two_pages)) report_url new_session).2
    = Some (str "Rapport annuel  Bank Al-Maghrib")
  /\ no_double_blank (str "Rapport annuel  Bank Al-Maghrib") = false
  /\ Re.sub_blanks (mjoin two_pages) = str "Rapport annuel Bank Al-Maghrib".
Proof. vm_compute. auto. Qed.

End ExtractFacts.

(** ** The app store aggregation *)

Section AppsFacts.
Import Pd Apps Aggregate.

Lemma entry_labels_nodup : NoDup entry_labels.
Proof. apply (bool_decide_unpack _). by vm_compute. Qed.

Lemma scrape_omap (entry : text -> text -> result dict) (reg : registry)
  (data : list dict) :
  scrape entry reg data = data ++ omap (fun item => catch (entry item.1 item.2)) reg.
Proof.
  revert data. induction reg as [|[name app_id] reg IH]; intros data.
  - simpl. by rewrite app_nil_r.
  - cbn [scrape omap list_omap fst snd]. destruct (entry name app_id) as [e|x]; cbn [catch].
    + rewrite IH, <- app_assoc. reflexivity.
    + apply IH.
Qed.

Lemma attempt_shape (env : Stores) (p : platform) (name app_id : text) (e : dict) :
  attempt env p name app_id = Return e ->
  keys e = entry_labels
  /\ exists rest, map snd e = PyStr name :: PyStr (platform_name p) :: rest.
Proof.
  destruct p; unfold attempt, android_entry, ios_entry;
    repeat run_bind; try discriminate; intros [= <-]; (split; [reflexivity|]);
    eexists; reflexivity.
Qed.

Lemma successes_labels (env : Stores) (p : platform) (reg : registry) :
  Forall (fun e => keys e = entry_labels) (successes env p reg).
Proof.
  unfold successes. induction reg as [|[name app_id] reg IH]; [by apply Forall_nil|].
  cbn [omap list_omap fst snd].
  destruct (attempt env p name app_id) as [e|x] eqn:He; cbn [catch]; [|exact IH].
  apply Forall_cons. split; [|exact IH]. by apply attempt_shape in He as [? _].
Qed.

Lemma successes_rows (env : Stores) (p : platform) (reg : registry) (r : list value) :
  r ∈ map (map snd) (successes env p reg) ->
  exists name, row_for name p r /\ name ∈ reg.*1.
Proof.
  unfold successes. induction reg as [|[name app_id] reg IH]; [by intros ?%elem_of_nil|].
  cbn [omap list_omap fst snd fmap list_fmap].
  destruct (attempt env p name app_id) as [e|x] eqn:He; cbn [catch].
  - rewrite map_cons. intros [->|Hin]%elem_of_cons.
    + exists name. split; [|by left]. by apply attempt_shape in He as [_ ?].
    + destruct (IH Hin) as (n & ? & ?). exists n. split; [done|by right].
  - intros Hin. destruct (IH Hin) as (n & ? & ?). exists n. split; [done|by right].
Qed.

Lemma successes_skip (env : Stores) (p : platform) (before after : registry)
  (name app_id : text) :
  returns (attempt env p name app_id) = false ->
  successes env p (before ++ (name, app_id) :: after)
  = successes env p (before ++ after).
Proof.
  intros Hf. unfold successes. rewrite !omap_app. f_equal.
  cbn [omap list_omap fst snd]. by destruct (attempt env p name app_id).
Qed.

Lemma aligned_rows (ks : list text) (recs : list dict) :
  NoDup ks -> Forall (fun r => keys r = ks) recs ->
  map (fun r => align ks (record_of ks r)) (map (map snd) recs) = map (map snd) recs.
Proof.
  intros Hnd Hall. rewrite map_map. apply map_ext_in. intros r Hr.
  rewrite Forall_forall in Hall.
  assert (Hk : keys r = ks) by (apply Hall; by apply list_elem_of_In).
  rewrite <- Hk, zip_own_keys. apply align_own_keys. by rewrite Hk.
Qed.

(** Joining two tables made of records with the same keys gives the
    table of all the records. *)
Lemma concat_uniform (ks : list text) (la lb : list dict) :
  NoDup ks ->
  Forall (fun r => keys r = ks) la -> Forall (fun r => keys r = ks) lb ->
  concat (of_records la) (of_records lb) = of_records (la ++ lb).
Proof.
  intros Hnd Ha Hb.
  destruct la as [|a la].
  - destruct lb as [|b lb]; [reflexivity|].
    rewrite app_nil_l, of_records_nil, (of_records_uniform ks) by done.
    unfold concat. cbn [columns rows].
    rewrite union_keys_fresh by done. change (map _ [] ++ ?l) with l.
    f_equal. exact (aligned_rows ks (b :: lb) Hnd Hb).
  - rewrite (of_records_uniform ks a la) by done.
    assert (Hab : Forall (fun r => keys r = ks) ((a :: la) ++ lb)) by (by apply Forall_app).
    rewrite <- app_comm_cons in *.
    rewrite (of_records_uniform ks a (la ++ lb)) by done.
    destruct lb as [|b lb].
    + rewrite of_records_nil. unfold concat. cbn [columns rows].
      rewrite union_keys_known by set_solver. rewrite app_nil_r.
      f_equal. change (map _ []) with (@nil (list value)). rewrite app_nil_r.
      exact (aligned_rows ks (a :: la) Hnd Ha).
    + rewrite (of_records_uniform ks b lb) by done.
      unfold concat. cbn [columns rows].
      rewrite union_keys_known by set_solver.
      f_equal. rewrite (aligned_rows ks (a :: la) Hnd Ha), (aligned_rows ks (b :: lb) Hnd Hb).
      by rewrite app_comm_cons, map_app.
Qed.

(** The table holds the entries of the pairs whose block succeeded,
    Android first, each platform in registry order. *)
Lemma app_table (env : Stores) (android ios : registry) :
  get_app_store_data env android ios
  = of_records (successes env Android android ++ successes env IOS ios).
Proof.
  unfold get_app_store_data. rewrite !scrape_omap, !app_nil_l.
  apply (concat_uniform entry_labels);
    [apply entry_labels_nodup|apply (successes_labels env Android)
    |apply (successes_labels env IOS)].
Qed.

Lemma app_table_rows (env : Stores) (android ios : registry) :
  rows (get_app_store_data env android ios)
  = map (map snd) (successes env Android android ++ successes env IOS ios).
Proof.
  rewrite app_table.
  assert (Hall : Forall (fun e => keys e = entry_labels)
                   (successes env Android android ++ successes env IOS ios)).
  { apply Forall_app. split; apply successes_labels. }
  destruct (_ ++ _) as [|e es]; [reflexivity|].
  rewrite (of_records_uniform entry_labels); [reflexivity|apply entry_labels_nodup|done].
Qed.

Lemma run_rows (env : Stores) (p : platform) (reg other : registry) (r : list value) :
  r ∈ rows (run env p reg other) ->
  r ∈ map (map snd) (successes env p reg)
  \/ r ∈ map (map snd) (successes env (opposite p) other).
Proof.
  destruct p; cbn [run opposite]; rewrite app_table_rows, map_app;
    intros [?|?]%elem_of_app; auto.
Qed.

Lemma platform_name_inj (p q : platform) : platform_name p = platform_name q -> p = q.
Proof. destruct p, q; try reflexivity; vm_compute; discriminate. Qed.

(** A pair whose block raises leaves no trace in the table. *)
Lemma failed_pair_skipped (env : Stores) (p : platform)
  (before after other : registry) (name app_id : text) :
  returns (attempt env p name app_id) = false ->
  run env p (before ++ (name, app_id) :: after) other
  = run env p (before ++ after) other.
Proof.
  intros Hf. destruct p; cbn [run]; rewrite !app_table;
    by rewrite (successes_skip env _ before after name app_id Hf).
Qed.

Lemma no_row_for_absent (env : Stores) (p : platform) (reg other : registry)
  (name : text) :
  name ∉ reg.*1 ->
  Forall (fun r => ~ row_for name p r) (rows (run env p reg other)).
Proof.
  intros Hn. apply Forall_forall. intros r Hr [rest ->].
  apply run_rows in Hr as [Hr|Hr]; apply successes_rows in Hr as (n & [rest' Heq] & Hin).
  - injection Heq as <- _. done.
  - injection Heq as _ Hp%platform_name_inj. by destruct p.
Qed.


Lemma absent_elsewhere (before after : registry) (name app_id : text) :
  NoDup (before ++ (name, app_id) :: after).*1 -> name ∉ (before ++ after).*1.
Proof.
  rewrite !fmap_app, fmap_cons. cbn [fst].
  intros (Hb & Hdisj & Ha)%NoDup_app.
  apply NoDup_cons in Ha as [Hn Ha].
  intros [Hin|Hin]%elem_of_app; [|done].
  apply (Hdisj name Hin). by left.
Qed.

Lemma query_failure_fails_attempt (env : Stores) (name app_id : text) (e : exn) :
  (google_play env app_id = Raise e -> returns (attempt env Android name app_id) = false)
  /\ (itunes env (str "https://itunes.apple.com/lookup?id=" ++ app_id ++ str "&country=ma")
        = Raise e -> returns (attempt env IOS name app_id) = false).
Proof.
  split; intros H; unfold attempt, android_entry, ios_entry; cbv zeta;
    by rewrite H, bind_Raise.
Qed.

Lemma succeeded_labels (env : Stores) (p : platform) (reg : registry) :
  map (take 2) (map (map snd) (successes env p reg)) = map (label p) (succeeded env p reg).
Proof.
  unfold successes, succeeded, registry in *.
  induction reg as [|[name app_id] reg IH]; [reflexivity|].
  cbn [omap list_omap fst snd].
  destruct (attempt env p name app_id) as [e|x] eqn:He; cbn [catch].
  - rewrite filter_cons_True by (cbn [fst snd]; by rewrite He).
    rewrite !map_cons. f_equal; [|exact IH].
    by apply attempt_shape in He as [_ [rest ->]].
  - rewrite filter_cons_False by (cbn [fst snd]; by rewrite He). exact IH.
Qed.

(** The labels of the table: one row for each pair whose block
    succeeded, Android first, each platform in registry order. *)
Lemma app_table_labels (env : Stores) (android ios : registry) :
  labels (get_app_store_data env android ios)
  = map (label Android) (succeeded env Android android)
    ++ map (label IOS) (succeeded env IOS ios).
Proof.
  unfold labels. rewrite app_table_rows, !map_app.
  by rewrite (succeeded_labels env Android), (succeeded_labels env IOS).
Qed.

(** C7. When the guarded block of one (wallet, platform) pair raises,
    as it does when the store query fails, the table is the one of a
    run whose registry lacks that pair: it has one row, labelled with
    the wallet and the platform, for each other pair whose block
    succeeded, Android first and in registry order, and no row belongs
    to the failed pair. *)
Theorem failed_pair_is_isolated (env : Stores) (p : platform)
  (before after other : registry) (name app_id : text) :
  NoDup (before ++ (name, app_id) :: after).*1 ->
  returns (attempt env p name app_id) = false ->
  run env p (before ++ (name, app_id) :: after) other
    = run env p (before ++ after) other
  /\ labels (run env p (before ++ (name, app_id) :: after) other)
     = match p with
       | Android => map (label Android) (succeeded env Android (before ++ after))
                    ++ map (label IOS) (succeeded env IOS other)
       | IOS => map (label Android) (succeeded env Android other)
                ++ map (label IOS) (succeeded env IOS (before ++ after))
       end
  /\ Forall (fun r => ~ row_for name p r)
       (rows (run env p (before ++ (name, app_id) :: after) other)).
Proof.
  intros Hnd Hf.
  pose proof (failed_pair_skipped env p before after other name app_id Hf) as Heq.
  split; [exact Heq|]. rewrite Heq. split.
  - destruct p; cbn [run]; apply app_table_labels.
  - apply no_row_for_absent. by apply absent_elsewhere in Hnd.
Qed.

Lemma failed_pair_is_isolated_witness :
  run sample_stores Android
      (take 7 wallet_apps_android ++ (str "Kenzup", str "com.kenzup.app.prod")
         :: drop 8 wallet_apps_android) wallet_apps_ios
    = run sample_stores Android
        (take 7 wallet_apps_android ++ drop 8 wallet_apps_android) wallet_apps_ios
  /\ labels (run sample_stores Android
               (take 7 wallet_apps_android ++ (str "Kenzup", str "com.kenzup.app.prod")
                  :: drop 8 wallet_apps_android) wallet_apps_ios)
     = map (label Android)
         (succeeded sample_stores Android
            (take 7 wallet_apps_android ++ drop 8 wallet_apps_android))
       ++ map (label IOS) (succeeded sample_stores IOS wallet_apps_ios)
  /\ Forall (fun r => ~ row_for (str "Kenzup") Android r)
       (rows (run sample_stores Android
                (take 7 wallet_apps_android ++ (str "Kenzup", str "com.kenzup.app.prod")
                   :: drop 8 wallet_apps_android) wallet_apps_ios)).
Proof.
  apply (failed_pair_is_isolated sample_stores Android
           (take 7 wallet_apps_android) (drop 8 wallet_apps_android)
           wallet_apps_ios (str "Kenzup") (str "com.kenzup.app.prod")).
  - apply (bool_decide_unpack _). by vm_compute.
  - by vm_compute.
Defined.

(** A pair whose query succeeds need not have a row.  In the sample
    run the query of Kenzup fails and the query of Ora returns its
    details, which lack the update time: the table has no row for Ora
    on Android, its two rows are those of Glovo. *)
Lemma queried_pair_without_row :
  wallet_apps_android
  = take 6 wallet_apps_android
    ++ (str "Ora", str "com.oracash") :: (str "Kenzup", str "com.kenzup.app.prod")
    :: drop 8 wallet_apps_android
  /\ google_play sample_stores (str "com.kenzup.app.prod") = Raise RequestError
  /\ google_play sample_stores (str "com.oracash") = Return ora_details
  /\ labels (get_app_store_data sample_stores wallet_apps_android wallet_apps_ios)
     = [ [PyStr (str "Glovo"); PyStr (str "Android")];
         [PyStr (str "Glovo"); PyStr (str "iOS")] ].
Proof. vm_compute. auto. Qed.

(** C10. When the store query of an Android registry entry succeeds
    but the details have no 'updated' value (the key is absent or holds
    None), the timestamp conversion raises [TypeError] inside the
    guarded block, the loop appends nothing for that entry, and the
    table has no row for that wallet on Android. *)
Theorem missing_update_time_skips_app (env : Stores)
  (before after ios : registry) (name app_id : text) (details : dict) :
  NoDup (before ++ (name, app_id) :: after).*1 ->
  google_play env app_id = Return details ->
  lookup_key (str "updated") details = None
  \/ lookup_key (str "updated") details = Some PyNone ->
  android_entry env name app_id = Raise TypeError
  /\ scrape (android_entry env) (before ++ (name, app_id) :: after) []
     = scrape (android_entry env) (before ++ after) []
  /\ get_app_store_data env (before ++ (name, app_id) :: after) ios
     = get_app_store_data env (before ++ after) ios
  /\ Forall (fun r => ~ row_for name Android r)
       (rows (get_app_store_data env (before ++ (name, app_id) :: after) ios)).
Proof.
  intros Hnd Hq Hup.
  assert (Hraise : android_entry env name app_id = Raise TypeError).
  { unfold android_entry. rewrite Hq, bind_Return.
    assert (get details (str "updated") = PyNone) as ->
      by (unfold get; by destruct Hup as [-> | ->]).
    reflexivity. }
  assert (Hf : returns (attempt env Android name app_id) = false)
    by (cbn [attempt]; by rewrite Hraise).
  split; [exact Hraise|]. split; [|split].
  - rewrite !scrape_omap, !app_nil_l.
    apply (successes_skip env Android before after name app_id Hf).
  - apply (failed_pair_skipped env Android before after ios name app_id Hf).
  - rewrite (failed_pair_skipped env Android before after ios name app_id Hf : 
               get_app_store_data env _ ios = _).
    apply (no_row_for_absent env Android (before ++ after) ios).
    by apply absent_elsewhere in Hnd.
Qed.

Lemma missing_update_time_skips_app_witness :
  android_entry sample_stores (str "Ora") (str "com.oracash") = Raise TypeError
  /\ scrape (android_entry sample_stores)
       (take 6 wallet_apps_android ++ (str "Ora", str "com.oracash")
          :: drop 7 wallet_apps_android) []
     = scrape (android_entry sample_stores)
         (take 6 wallet_apps_android ++ drop 7 wallet_apps_android) []
  /\ get_app_store_data sample_stores
       (take 6 wallet_apps_android ++ (str "Ora", str "com.oracash")
          :: drop 7 wallet_apps_android) wallet_apps_ios
     = get_app_store_data sample_stores
         (take 6 wallet_apps_android ++ drop 7 wallet_apps_android) wallet_apps_ios
  /\ Forall (fun r => ~ row_for (str "Ora") Android r)
       (rows (get_app_store_data sample_stores
                (take 6 wallet_apps_android ++ (str "Ora", str "com.oracash")
                   :: drop 7 wallet_apps_android) wallet_apps_ios)).
Proof.
  apply (missing_update_time_skips_app sample_stores
           (take 6 wallet_apps_android) (drop 7 wallet_apps_android)
           wallet_apps_ios (str "Ora") (str "com.oracash") ora_details).
  - apply (bool_decide_unpack _). by vm_compute.
  - by vm_compute.
  - left. by vm_compute.
Defined.

End AppsFacts.

(** * Further properties *)

(** ** Groups captured by a search *)

Section RegexFacts.
Import Report Re Tokens.
Local Close Scope Z_scope.

Lemma match_once (ic : bool) (cs : cset) (re : regex) (c : char) (s : text)
  (opened caps : list text) :
  match_here ic (Once cs :: re) (c :: s) opened caps
  = if accepts ic cs c then match_here ic re s opened caps else None.
Proof. reflexivity. Qed.

Lemma match_plus (ic : bool) (cs : cset) (re : regex) (c : char) (s : text)
  (opened caps : list text) :
  match_here ic (Plus cs :: re) (c :: s) opened caps
  = if accepts ic cs c then
      match match_here ic (Plus cs :: re) s opened caps with
      | Some r => Some r
      | None => match_here ic re s opened caps
      end
    else None.
Proof. reflexivity. Qed.

Lemma match_lazy (ic : bool) (cs : cset) (re : regex) (s : text)
  (opened caps : list text) :
  match_here ic (LazyStar cs :: re) s opened caps
  = match match_here ic re s opened caps with
    | Some r => Some r
    | None =>
      match s with
      | c :: s' =>
        if accepts ic cs c then match_here ic (LazyStar cs :: re) s' opened caps
        else None
      | [] => None
      end
    end.
Proof. destruct s; reflexivity. Qed.

(** A greedy repetition consumes a non-empty run of its set, and the
    rest of the pattern matches what follows. *)
Lemma match_plus_inv (ic : bool) (cs : cset) (re : regex) (s : text)
  (opened caps : list text) (r : list text) :
  match_here ic (Plus cs :: re) s opened caps = Some r ->
  exists pre s', s = pre ++ s' /\ pre <> []
                 /\ Forall (fun c => accepts ic cs c = true) pre
                 /\ match_here ic re s' opened caps = Some r.
Proof.
  induction s as [|c s IH]; [discriminate|].
  rewrite match_plus. destruct (accepts ic cs c) eqn:Hc; [|discriminate].
  destruct (match_here ic (Plus cs :: re) s opened caps) as [r'|] eqn:Hm.
  - intros [= ->]. destruct (IH eq_refl) as (pre & s' & -> & _ & Hall & Hk).
    exists (c :: pre), s'. repeat split; [done|by apply Forall_cons|done].
  - intros Hk. exists [c], s. repeat split; [done| |done].
    apply Forall_cons. split; [done|by apply Forall_nil].
Qed.

Lemma match_lazy_inv (ic : bool) (cs : cset) (re : regex) (s : text)
  (opened caps : list text) (r : list text) :
  match_here ic (LazyStar cs :: re) s opened caps = Some r ->
  exists pre s', s = pre ++ s' /\ match_here ic re s' opened caps = Some r.
Proof.
  induction s as [|c s IH]; rewrite match_lazy;
    destruct (match_here ic re _ opened caps) as [r'|] eqn:Hk.
  - intros [= ->]. by exists [], [].
  - discriminate.
  - intros [= ->]. by exists [], (c :: s).
  - destruct (accepts ic cs c); [|discriminate].
    intros (pre & s' & -> & H)%IH. by exists (c :: pre), s'.
Qed.

(** The groups that a match returns, one per group of the pattern, each
    captured from the group's set. *)
Lemma match_here_captures (ic : bool) (n : nat) :
  forall (re : regex), (length re <= n)%nat ->
  forall (sets : list cset), group_sets re = Some sets ->
  forall (s : text) (caps gs : list text),
    match_here ic re s [] caps = Some gs ->
    exists new, gs = rev caps ++ new /\ Forall2 (captured ic) new sets.
Proof.
  induction n as [|n IH]; intros re Hlen sets Hsets s caps gs Hm.
  - destruct re; [|simpl in Hlen; lia].
    injection Hsets as <-. injection Hm as <-.
    exists []. rewrite app_nil_r. split; [done|constructor].
  - destruct re as [|p re]; [injection Hsets as <-; injection Hm as <-;
                             exists []; rewrite app_nil_r; split; [done|constructor]|].
    simpl in Hlen.
    destruct p as [cs|cs|cs| |].
    + destruct s as [|c s]; [discriminate|]. rewrite match_once in Hm.
      destruct (accepts ic cs c); [|discriminate].
      apply (IH re ltac:(lia) sets Hsets s caps gs Hm).
    + apply match_plus_inv in Hm as (pre & s' & _ & _ & _ & Hm).
      apply (IH re ltac:(lia) sets Hsets s' caps gs Hm).
    + apply match_lazy_inv in Hm as (pre & s' & _ & Hm).
      apply (IH re ltac:(lia) sets Hsets s' caps gs Hm).
    + destruct re as [|[cs|cs|cs| |] re]; try discriminate.
      destruct re as [|[cs'|cs'|cs'| |] re]; try discriminate.
      cbn [group_sets] in Hsets.
      destruct (group_sets re) as [sets'|] eqn:Hs'; [|discriminate].
      injection Hsets as <-.
      change (match_here ic (Open :: Plus cs :: Close :: re) s [] caps)
        with (match_here ic (Plus cs :: Close :: re) s [s] caps) in Hm.
      apply match_plus_inv in Hm as (pre & s' & -> & Hne & Hall & Hm).
      change (match_here ic (Close :: re) s' [pre ++ s'] caps)
        with (match_here ic re s' []
                (take (length (pre ++ s') - length s') (pre ++ s') :: caps)) in Hm.
      replace (length (pre ++ s') - length s')%nat with (length pre) in Hm
        by (rewrite length_app; lia).
      rewrite take_app_length in Hm.
      simpl in Hlen.
      destruct (IH re ltac:(lia) sets' Hs' s' (pre :: caps) gs Hm) as (new & -> & Hnew).
      exists (pre :: new). split.
      * simpl. by rewrite <- app_assoc.
      * constructor; [by split|done].
    + discriminate.
Qed.

Lemma search_from_captures (ic : bool) (re : regex) (sets : list cset)
  (s : text) (gs : list text) :
  group_sets re = Some sets ->
  search_from ic re s = Some gs -> Forall2 (captured ic) gs sets.
Proof.
  intros Hsets. induction s as [|c s IH]; cbn [search_from];
    destruct (match_here ic re _ [] []) as [gs'|] eqn:Hm; try discriminate.
  - intros [= ->].
    destruct (match_here_captures ic _ re (le_n _) sets Hsets _ _ _ Hm) as (new & -> & H).
    done.
  - intros [= ->].
    destruct (match_here_captures ic _ re (le_n _) sets Hsets _ _ _ Hm) as (new & -> & H).
    done.
  - exact IH.
Qed.

Lemma lower_comma (c : char) : lower c = chr "," -> c = chr ",".
Proof.
  unfold lower.
  destruct ((65 <=? c) && (c <=? 90))%N eqn:H1.
  { apply andb_prop in H1 as [?%N.leb_le ?%N.leb_le]. vm_compute (chr ","). lia. }
  destruct (c =? 304)%N; [by vm_compute|].
  destruct (c =? 8490)%N; [by vm_compute|]. done.
Qed.

Lemma accepts_digit_comma (c : char) :
  accepts true [Digit; Lit (chr ",")] c = true -> is_digit c = true \/ c = chr ",".
Proof.
  unfold accepts. cbn [existsb atom_match].
  rewrite orb_false_r. intros [H|H]%orb_prop; [by left|right].
  unfold lit_match in H.
  change (lower (chr ",")) with (chr ",") in H.
  change (char_eqb (chr ",") (chr "i")) with false in H.
  change (char_eqb (chr ",") (chr "s")) with false in H.
  rewrite !andb_false_l, !orb_false_r in H.
  apply lower_comma. by apply N.eqb_eq in H.
Qed.

Lemma accepts_digit (c : char) : accepts true [Digit] c = true -> is_digit c = true.
Proof. unfold accepts. cbn [existsb atom_match]. by rewrite orb_false_r. Qed.

Lemma captured_numeral (g : text) :
  captured true g [Digit; Lit (chr ",")] -> numeral_token g.
Proof.
  intros [Hne Hall]. split; [done|].
  eapply Forall_impl; [exact Hall|]. apply accepts_digit_comma.
Qed.

Lemma captured_digits (g : text) : captured true g [Digit] -> digit_token g.
Proof.
  intros [Hne Hall]. split; [done|].
  eapply Forall_impl; [exact Hall|]. apply accepts_digit.
Qed.

Lemma search_groups (pattern : text) (re : regex) (sets : list cset)
  (s : text) (gs : list text) :
  compile pattern = Some re -> group_sets re = Some sets ->
  search pattern s true = Some gs -> Forall2 (captured true) gs sets.
Proof.
  intros Hc Hs. unfold search. rewrite Hc. by apply search_from_captures.
Qed.

End RegexFacts.

(** ** The conversion of captured numbers *)

Section NumeralFacts.
Import Report Numerals.
Local Open Scope Z_scope.

(** Every decimal digit but the ASCII ones is above U+0660, and no run
    of digits meets a blank. *)
Lemma digit_zeros_apart :
  Forall (fun z => z = 48 \/ 1632 <= z /\ (z + 10 <= 5760 \/ 12288 < z
                                            \/ 5760 < z /\ z + 10 <= 8192))%N
    digit_zeros.
Proof. apply (bool_decide_unpack _). by vm_compute. Qed.

Lemma digit_in_run (c : char) :
  is_digit c = true ->
  exists z, In z digit_zeros /\ (z <= c < z + 10)%N /\ digit_value c = Z.of_N (c - z).
Proof.
  unfold is_digit, digit_value, digit_zero.
  destruct (List.find _ digit_zeros) as [z|] eqn:F; [intros _|discriminate].
  apply find_some in F as [Hin Hb].
  apply andb_prop in Hb as [?%N.leb_le ?%N.ltb_lt]. by exists z.
Qed.

Lemma digit_range (c : char) :
  is_digit c = true -> (48 <= c <= 57 \/ 1632 <= c)%N.
Proof.
  intros (z & Hin & Hz & _)%digit_in_run.
  pose proof digit_zeros_apart as Ha. rewrite List.Forall_forall in Ha.
  specialize (Ha z Hin). lia.
Qed.

Lemma digit_not_blank (c : char) : is_digit c = true -> is_space c = false.
Proof.
  intros (z & Hin & Hz & _)%digit_in_run.
  pose proof digit_zeros_apart as Ha. rewrite List.Forall_forall in Ha.
  specialize (Ha z Hin). unfold is_space.
  repeat match goal with
         | |- context [(?a <=? ?b)%N] => destruct (N.leb_spec a b); try (exfalso; lia)
         | |- context [(?a =? ?b)%N] => destruct (N.eqb_spec a b); try (exfalso; lia)
         end; reflexivity.
Qed.

Ltac char_facts :=
  repeat match goal with
         | H : is_digit ?c = true |- _ =>
           pose proof (digit_range c H); pose proof (digit_not_blank c H); clear H
         end;
  repeat match goal with
         | |- context [chr ?a] =>
           let v := eval vm_compute in (chr a) in change (chr a) with v
         end;
  cbv [char_eqb float_blank ascii_lower];
  repeat match goal with
         | H : is_space ?c = false |- context [is_space ?c] => rewrite H
         end;
  cbn [negb andb orb];
  repeat match goal with
         | |- context [(?a <=? ?b)%N] => destruct (N.leb_spec a b); try (exfalso; lia)
         | |- context [(?a <? ?b)%N] => destruct (N.ltb_spec a b); try (exfalso; lia)
         | |- context [(?a =? ?b)%N] => destruct (N.eqb_spec a b); try (exfalso; lia)
         end;
  cbn [negb andb orb]; try reflexivity; try lia.

Lemma plain_not_blank (c : char) : plain c -> float_blank c = false.
Proof. intros [H| ->]; [|reflexivity]. char_facts. Qed.

Lemma plain_not_underscore (c : char) : plain c -> char_eqb c (chr "_") = false.
Proof. intros [H| ->]; [|reflexivity]. char_facts. Qed.

Lemma plain_not_sign (c : char) :
  plain c -> char_eqb c (chr "-") = false /\ char_eqb c (chr "+") = false.
Proof. intros [H| ->]; [|split; reflexivity]. split; char_facts. Qed.

Lemma plain_lower (c : char) : plain c -> ascii_lower c = c.
Proof. intros [H| ->]; [|reflexivity]. char_facts. Qed.

Lemma plain_not_letter (c : char) :
  plain c -> char_eqb c (chr "i") = false /\ char_eqb c (chr "n") = false.
Proof. intros [H| ->]; [|split; reflexivity]. split; char_facts. Qed.

Lemma lstrip_head (p : char -> bool) (c : char) (s : text) :
  p c = false -> lstrip p (c :: s) = c :: s.
Proof. intros H. simpl. by rewrite H. Qed.

Lemma strip_plain (s : text) : Forall plain s -> strip float_blank s = s.
Proof.
  intros Hall. unfold strip.
  assert (Hl : forall t, Forall plain t -> lstrip float_blank t = t).
  { intros [|c t] Ht; [reflexivity|]. apply lstrip_head, plain_not_blank.
    by apply Forall_cons in Ht as [? _]. }
  rewrite (Hl s Hall), Hl by (by apply Forall_rev). apply rev_involutive.
Qed.

Lemma underscores_plain (prev : char) (s : text) :
  char_eqb prev (chr "_") = false -> Forall plain s -> underscores_ok prev s = true.
Proof.
  revert prev. induction s as [|c s IH]; intros prev Hp Hall; cbn [underscores_ok].
  - by rewrite Hp.
  - apply Forall_cons in Hall as [Hc Hall].
    rewrite (plain_not_underscore c Hc), Hp. cbn [negb orb andb].
    apply IH; [by apply plain_not_underscore|done].
Qed.

Lemma filter_plain (s : text) :
  Forall plain s -> filter (fun c => negb (char_eqb c (chr "_"))) s = s.
Proof.
  induction 1 as [|c s Hc _ IH]; [reflexivity|].
  unfold text in *. rewrite filter_cons_True; [by rewrite IH|].
  by rewrite (plain_not_underscore c Hc).
Qed.

Lemma map_lower_plain (s : text) : Forall plain s -> map ascii_lower s = s.
Proof.
  induction 1 as [|c s Hc _ IH]; [reflexivity|].
  simpl. by rewrite IH, (plain_lower c Hc).
Qed.

(** On digits and points [float] is the decimal reader alone. *)
Lemma py_float_plain (s : text) :
  s <> [] -> Forall plain s ->
  py_float s = match parse_decimal s with
               | Some (m, e) => Return (of_decimal false m e)
               | None => Raise ValueError
               end.
Proof.
  intros Hne Hall. unfold py_float. cbv zeta.
  rewrite (strip_plain s Hall), (underscores_plain 0%N s eq_refl Hall).
  cbn [negb]. rewrite (filter_plain s Hall).
  destruct s as [|c s]; [done|].
  pose proof Hall as Hall'.
  apply Forall_cons in Hall' as [Hc _].
  unfold split_sign.
  destruct (plain_not_sign c Hc) as [-> ->].
  rewrite (map_lower_plain _ Hall).
  destruct (plain_not_letter c Hc) as [Hi Hn].
  change (text_eqb (c :: s) (str "inf")) with (char_eqb c (chr "i") && text_eqb s (str "nf")).
  change (text_eqb (c :: s) (str "infinity"))
    with (char_eqb c (chr "i") && text_eqb s (str "nfinity")).
  change (text_eqb (c :: s) (str "nan")) with (char_eqb c (chr "n") && text_eqb s (str "an")).
  rewrite Hi, Hn. reflexivity.
Qed.

Lemma span_digits (ds rest : text) :
  Forall (fun c => is_digit c = true) ds ->
  match rest with [] => True | c :: _ => is_digit c = false end ->
  span is_digit (ds ++ rest) = (ds, rest).
Proof.
  intros Hd Hr. induction Hd as [|c ds Hc _ IH].
  - destruct rest as [|c rest]; [reflexivity|]. simpl. by rewrite Hr.
  - simpl. by rewrite Hc, IH.
Qed.

Lemma parse_decimal_after_point (ip fp rest : text) :
  Forall (fun c => is_digit c = true) ip ->
  Forall (fun c => is_digit c = true) fp ->
  parse_decimal (ip ++ chr "." :: fp ++ rest)
  = match rest with
    | [] => match ip ++ fp with
            | [] => None
            | ds => Some (N_of_digits ds, - Z.of_nat (length fp))
            end
    | c :: _ => if char_eqb c (chr ".") then None
                else parse_decimal (ip ++ chr "." :: fp ++ rest)
    end.
Proof.
  intros Hi Hf. destruct rest as [|c rest].
  - unfold parse_decimal. rewrite app_nil_r.
    rewrite (span_digits ip (chr "." :: fp) Hi eq_refl).
    change (char_eqb (chr ".") (chr ".")) with true. cbv iota.
    rewrite <- (app_nil_r fp) at 1. rewrite (span_digits fp [] Hf I).
    destruct (ip ++ fp); [reflexivity|]. reflexivity.
  - destruct (char_eqb c (chr ".")) eqn:Hc; [|reflexivity].
    apply N.eqb_eq in Hc as ->.
    unfold parse_decimal.
    rewrite (span_digits ip (chr "." :: fp ++ chr "." :: rest) Hi eq_refl).
    change (char_eqb (chr ".") (chr ".")) with true. cbv iota.
    rewrite (span_digits fp (chr "." :: rest) Hf eq_refl).
    destruct (ip ++ fp); reflexivity.
Qed.

Lemma parse_decimal_digits (ip : text) :
  ip <> [] -> Forall (fun c => is_digit c = true) ip ->
  parse_decimal ip = Some (N_of_digits ip, 0).
Proof.
  intros Hne Hi. unfold parse_decimal.
  rewrite <- (app_nil_r ip) at 1. rewrite (span_digits ip [] Hi I).
  rewrite app_nil_r. destruct ip; [done|reflexivity].
Qed.


Lemma digit_not_comma (c : char) : is_digit c = true -> c <> chr ",".
Proof. intros H ->. discriminate. Qed.

Lemma digit_not_space (c : char) : is_digit c = true -> char_eqb c (chr " ") = false.
Proof. intros H. char_facts. Qed.

Lemma numeral_shape (g : text) :
  digits_commas g ->
  exists ip r, g = ip ++ r /\ digits ip
               /\ (r = [] \/ exists r', r = chr "," :: r' /\ digits_commas r').
Proof.
  induction 1 as [|c g [Hc| ->] Hg IH].
  - exists [], []. split; [done|]. split; [constructor|by left].
  - destruct IH as (ip & r & -> & Hip & Hr).
    exists (c :: ip), r. split; [done|]. split; [by constructor|done].
  - exists [], (chr "," :: g). split; [done|]. split; [constructor|].
    right. by exists g.
Qed.

Lemma remove_spaces_numeral (g : text) :
  digits_commas g -> replace1 (chr " ") (str "") g = g.
Proof.
  unfold replace1. induction 1 as [|c g Hc _ IH]; [reflexivity|].
  cbn [flat_map]. rewrite IH.
  destruct Hc as [Hc| ->]; [by rewrite (digit_not_space c Hc)|reflexivity].
Qed.

Lemma to_points_digits (ip rest : text) :
  digits ip ->
  replace1 (chr ",") (str ".") (ip ++ rest) = ip ++ replace1 (chr ",") (str ".") rest.
Proof.
  unfold replace1. induction 1 as [|c ip Hc _ IH]; [reflexivity|].
  cbn [app flat_map]. rewrite IH.
  assert (char_eqb c (chr ",") = false) as -> by char_facts. reflexivity.
Qed.

Lemma to_points_comma (r : text) :
  replace1 (chr ",") (str ".") (chr "," :: r)
  = chr "." :: replace1 (chr ",") (str ".") r.
Proof. reflexivity. Qed.

Lemma to_points_plain (g : text) :
  digits_commas g -> Forall plain (replace1 (chr ",") (str ".") g).
Proof.
  unfold replace1. induction 1 as [|c g Hc _ IH]; [constructor|].
  cbn [flat_map]. destruct Hc as [Hc| ->].
  - assert (char_eqb c (chr ",") = false) as -> by char_facts.
    constructor; [by left|done].
  - constructor; [by right|done].
Qed.

Lemma digits_plain (s : text) : digits s -> Forall plain s.
Proof. intros H. eapply Forall_impl; [exact H|]. by left. Qed.

Lemma filter_comma_digits (ip : text) :
  digits ip -> filter (fun c => c = chr ",") ip = [].
Proof.
  unfold text. induction 1 as [|c ip Hc _ IH]; [reflexivity|].
  rewrite filter_cons_False; [done|by apply digit_not_comma].
Qed.

Lemma filter_digit_digits (ip : text) :
  digits ip -> filter (fun c => is_digit c = true) ip = ip.
Proof.
  unfold text. induction 1 as [|c ip Hc _ IH]; [reflexivity|].
  rewrite filter_cons_True by done. by rewrite IH.
Qed.

Lemma before_digits (ip rest : text) :
  digits ip -> before (chr ",") (ip ++ rest) = ip ++ before (chr ",") rest.
Proof.
  induction 1 as [|c ip Hc _ IH]; [reflexivity|].
  cbn [app before]. assert (char_eqb c (chr ",") = false) as -> by char_facts.
  by rewrite IH.
Qed.

Lemma commas_split (ip rest : text) :
  digits ip -> commas (ip ++ chr "," :: rest) = S (commas rest).
Proof.
  intros Hip. pose proof (filter_comma_digits ip Hip) as Fc.
  unfold commas, text in *. rewrite filter_app, Fc, filter_cons_True by done.
  reflexivity.
Qed.

Lemma commas_digits (ip : text) : digits ip -> commas ip = 0%nat.
Proof. intros Hip. unfold commas. by rewrite (filter_comma_digits ip Hip). Qed.

Lemma filter_digit_split (ip rest : text) :
  digits ip ->
  filter (fun c => is_digit c = true) (ip ++ chr "," :: rest)
  = ip ++ filter (fun c => is_digit c = true) rest.
Proof.
  intros Hip. pose proof (filter_digit_digits ip Hip) as Fd.
  unfold text in *. rewrite filter_app, Fd, filter_cons_False by discriminate.
  reflexivity.
Qed.

Lemma decimals_split (ip rest : text) :
  digits ip -> decimals (ip ++ chr "," :: rest) = length rest.
Proof.
  intros Hip. unfold decimals. rewrite (before_digits ip _ Hip).
  cbn [before]. change (char_eqb (chr ",") (chr ",")) with true. cbv iota.
  rewrite app_nil_r, length_app. cbn [length]. lia.
Qed.

Lemma decimals_digits (ip : text) : digits ip -> decimals ip = 0%nat.
Proof.
  intros Hip. unfold decimals.
  pose proof (before_digits ip [] Hip) as E. cbn [before] in E.
  rewrite !app_nil_r in E. rewrite E. lia.
Qed.

Lemma to_points_only_digits (ip : text) :
  digits ip -> replace1 (chr ",") (str ".") ip = ip.
Proof.
  intros Hip. pose proof (to_points_digits ip [] Hip) as E.
  cbn [replace1 flat_map] in E. by rewrite !app_nil_r in E.
Qed.

(** The conversion of a captured number: a value when the token has at
    most one comma and at least one digit, [ValueError] otherwise. *)
Lemma clean_value_numeral_eq (g : text) :
  g <> [] -> digits_commas g ->
  clean_value g
  = if bool_decide ((commas g <= 1)%nat /\ (1 <= digit_count g)%nat)
    then Return (numeral_value g) else Raise ValueError.
Proof.
  intros Hne Hg. unfold clean_value.
  rewrite (remove_spaces_numeral g Hg).
  rewrite py_float_plain; [| |by apply to_points_plain].
  2:{ destruct g as [|c g]; [done|]. apply Forall_cons in Hg as [[Hc| ->] _].
      - unfold replace1. cbn [flat_map].
        assert (char_eqb c (chr ",") = false) as -> by char_facts. done.
      - done. }
  destruct (numeral_shape g Hg) as (ip & r & -> & Hip & [->|(r' & -> & Hr')]).
  - rewrite app_nil_r in *.
    rewrite (to_points_only_digits ip Hip), (parse_decimal_digits ip Hne Hip).
    unfold numeral_value, digit_count.
    rewrite (commas_digits ip Hip), (decimals_digits ip Hip).
    pose proof (filter_digit_digits ip Hip) as Fd. rewrite Fd.
    rewrite bool_decide_true; [reflexivity|].
    destruct ip; [done|simpl; lia].
  - destruct (numeral_shape r' Hr') as (fp & r2 & -> & Hfp & Hr2).
    rewrite (to_points_digits ip _ Hip), to_points_comma, (to_points_digits fp _ Hfp).
    rewrite (parse_decimal_after_point ip fp _ Hip Hfp).
    unfold numeral_value, digit_count.
    rewrite (commas_split ip _ Hip), (decimals_split ip _ Hip).
    pose proof (filter_digit_split ip (fp ++ r2) Hip) as Fs.
    unfold text in *. rewrite Fs. clear Fs.
    destruct Hr2 as [->|(r3 & -> & Hr3)].
    + rewrite !app_nil_r. cbn [replace1 flat_map].
      pose proof (filter_digit_digits fp Hfp) as Fd. unfold text in *. rewrite Fd.
      rewrite (commas_digits fp Hfp).
      destruct (ip ++ fp) as [|d ds] eqn:Hd.
      * rewrite bool_decide_false by (simpl; lia). reflexivity.
      * rewrite bool_decide_true by (simpl; lia). reflexivity.
    + rewrite to_points_comma.
      change (char_eqb (chr ".") (chr ".")) with true. cbv iota.
      rewrite (commas_split fp _ Hfp).
      rewrite bool_decide_false by lia. reflexivity.
Qed.

End NumeralFacts.

(** ** The outcomes of the parser *)

Section ParserOutcomes.
Import Pd Report Runs Tokens Numerals.
Local Open Scope Z_scope.

Lemma clean_value_token (g : text) :
  numeral_token g ->
  clean_value g = if token_ok g then Return (numeral_value g) else Raise ValueError.
Proof. intros [Hne Hg]. by apply clean_value_numeral_eq. Qed.

Lemma digit_token_ok (g : text) : digit_token g -> numeral_token g /\ token_ok g = true.
Proof.
  intros [Hne Hd]. split.
  - split; [done|]. eapply Forall_impl; [exact Hd|]. by left.
  - unfold token_ok. apply bool_decide_eq_true.
    rewrite (commas_digits g Hd). unfold digit_count.
    pose proof (filter_digit_digits g Hd) as E. rewrite E.
    destruct g; [done|simpl; lia].
Qed.

Lemma mobile_tokens (s : text) (m : list text) :
  Re.search mobile_re s true = Some m ->
  exists n_2023 n_2022 v_2023 v_2022 growth,
    m = [n_2023; n_2022; v_2023; v_2022; growth]
    /\ numeral_token n_2023 /\ numeral_token n_2022
    /\ numeral_token v_2023 /\ numeral_token v_2022 /\ digit_token growth.
Proof.
  intros Hm.
  destruct (Re.compile mobile_re) as [re|] eqn:H1; [|by vm_compute in H1].
  assert (Hs : group_sets re
               = Some (replicate 4 [Re.Digit; Re.Lit (chr ",")] ++ [[Re.Digit]])).
  { vm_compute in H1. injection H1 as <-. by vm_compute. }
  pose proof (search_groups _ _ _ _ _ H1 Hs Hm) as F.
  cbn [replicate app] in F.
  inversion F as [|a ? ? ? Ha F1]; subst. inversion F1 as [|b ? ? ? Hb F2]; subst.
  inversion F2 as [|c ? ? ? Hc F3]; subst. inversion F3 as [|d ? ? ? Hd F4]; subst.
  inversion F4 as [|e ? ? ? He F5]; subst. inversion F5; subst.
  exists a, b, c, d, e. split; [done|].
  split_and!; try by apply captured_numeral. by apply captured_digits.
Qed.

Lemma pos_tokens (s : text) (num val : list text) :
  Re.search pos_num_re s true = Some num ->
  Re.search pos_val_re s true = Some val ->
  exists growth n_2022 n_2023 val_2023 val_2022,
    num = [growth; n_2022; n_2023] /\ val = [val_2023; val_2022]
    /\ numeral_token growth /\ numeral_token n_2022 /\ numeral_token n_2023
    /\ numeral_token val_2023 /\ numeral_token val_2022.
Proof.
  intros Hn Hv.
  destruct (Re.compile pos_num_re) as [re1|] eqn:H1; [|by vm_compute in H1].
  destruct (Re.compile pos_val_re) as [re2|] eqn:H2; [|by vm_compute in H2].
  assert (Hs1 : group_sets re1 = Some (replicate 3 [Re.Digit; Re.Lit (chr ",")])).
  { vm_compute in H1. injection H1 as <-. by vm_compute. }
  assert (Hs2 : group_sets re2 = Some (replicate 2 [Re.Digit; Re.Lit (chr ",")])).
  { vm_compute in H2. injection H2 as <-. by vm_compute. }
  pose proof (search_groups _ _ _ _ _ H1 Hs1 Hn) as F1.
  pose proof (search_groups _ _ _ _ _ H2 Hs2 Hv) as F2.
  cbn [replicate] in F1, F2.
  inversion F1 as [|a ? ? ? Ha F1']; subst. inversion F1' as [|b ? ? ? Hb F1'']; subst.
  inversion F1'' as [|c ? ? ? Hc F1''']; subst. inversion F1'''; subst.
  inversion F2 as [|d ? ? ? Hd F2']; subst. inversion F2' as [|e ? ? ? He F2'']; subst.
  inversion F2''; subst.
  exists a, b, c, d, e. split; [done|]. split; [done|].
  split_and!; by apply captured_numeral.
Qed.

(** X4. Every number captured by the three patterns is a non-empty run
    of digits and commas (of digits alone for the growth of the mobile
    wallet rule); the POS patterns capture three and two numbers, the
    mobile wallet pattern five. *)
Theorem captured_tokens_are_numerals (s : text) :
  match Re.search pos_num_re s true with
  | Some gs => exists growth n_2022 n_2023,
      gs = [growth; n_2022; n_2023]
      /\ numeral_token growth /\ numeral_token n_2022 /\ numeral_token n_2023
  | None => True
  end
  /\ match Re.search pos_val_re s true with
     | Some gs => exists val_2023 val_2022,
         gs = [val_2023; val_2022] /\ numeral_token val_2023 /\ numeral_token val_2022
     | None => True
     end
  /\ match Re.search mobile_re s true with
     | Some gs => exists n_2023 n_2022 v_2023 v_2022 growth,
         gs = [n_2023; n_2022; v_2023; v_2022; growth]
         /\ numeral_token n_2023 /\ numeral_token n_2022
         /\ numeral_token v_2023 /\ numeral_token v_2022 /\ digit_token growth
     | None => True
     end.
Proof.
  destruct (Re.compile pos_num_re) as [re1|] eqn:H1; [|by vm_compute in H1].
  destruct (Re.compile pos_val_re) as [re2|] eqn:H2; [|by vm_compute in H2].
  assert (Hs1 : group_sets re1 = Some (replicate 3 [Re.Digit; Re.Lit (chr ",")])).
  { vm_compute in H1. injection H1 as <-. by vm_compute. }
  assert (Hs2 : group_sets re2 = Some (replicate 2 [Re.Digit; Re.Lit (chr ",")])).
  { vm_compute in H2. injection H2 as <-. by vm_compute. }
  split; [|split].
  - destruct (Re.search pos_num_re s true) as [gs|] eqn:Hn; [|done].
    pose proof (search_groups _ _ _ _ _ H1 Hs1 Hn) as F. cbn [replicate] in F.
    inversion F as [|a ? ? ? Ha F1]; subst. inversion F1 as [|b ? ? ? Hb F2]; subst.
    inversion F2 as [|c ? ? ? Hc F3]; subst. inversion F3; subst.
    exists a, b, c. split; [done|]. split_and!; by apply captured_numeral.
  - destruct (Re.search pos_val_re s true) as [gs|] eqn:Hv; [|done].
    pose proof (search_groups _ _ _ _ _ H2 Hs2 Hv) as F. cbn [replicate] in F.
    inversion F as [|a ? ? ? Ha F1]; subst. inversion F1 as [|b ? ? ? Hb F2]; subst.
    inversion F2; subst.
    exists a, b. split; [done|]. split_and!; by apply captured_numeral.
  - destruct (Re.search mobile_re s true) as [gs|] eqn:Hm; [|done].
    exact (mobile_tokens s gs Hm).
Qed.

(** X5. On a captured number the removal of spaces changes nothing,
    and [clean_value] returns exactly when the number has at most one
    comma and at least one digit; its value is then the float nearest to
    the digits read as an integer, divided by ten to the number of
    characters after the comma.  Otherwise it raises [ValueError]. *)
Theorem numeral_conversion (g : text) :
  numeral_token g ->
  replace1 (chr " ") (str "") g = g
  /\ clean_value g
     = if bool_decide ((commas g <= 1)%nat /\ (1 <= digit_count g)%nat)
       then Return (of_decimal false
                      (N_of_digits (filter (fun c => is_digit c = true) g))
                      (- Z.of_nat (decimals g)))
       else Raise ValueError.
Proof.
  intros [Hne Hg]. split; [by apply remove_spaces_numeral|].
  by apply clean_value_numeral_eq.
Qed.

Lemma numeral_conversion_witness :
  replace1 (chr " ") (str "") (str "131,3") = str "131,3"
  /\ clean_value (str "131,3")
     = if bool_decide ((commas (str "131,3") <= 1)%nat
                       /\ (1 <= digit_count (str "131,3"))%nat)
       then Return (of_decimal false
                      (N_of_digits (filter (fun c => is_digit c = true) (str "131,3")))
                      (- Z.of_nat (decimals (str "131,3"))))
       else Raise ValueError.
Proof.
  apply (numeral_conversion (str "131,3")).
  split; [by vm_compute|].
  apply (bool_decide_unpack _). by vm_compute.
Defined.


(** X6. When both POS patterns match, the POS rule has three outcomes:
    [ValueError] when one of the two values is not a numeral that
    converts; [ZeroDivisionError] when the prior value is zero, whatever
    the three counts are; otherwise [ValueError] when a count or the
    growth does not convert, and else the two rows. *)
Theorem pos_rows_outcome (s : text) (num val : list text) :
  Re.search pos_num_re s true = Some num ->
  Re.search pos_val_re s true = Some val ->
  exists growth n_2022 n_2023 val_2023 val_2022,
    num = [growth; n_2022; n_2023] /\ val = [val_2023; val_2022]
    /\ pos_rows s =
       if token_ok val_2023 && token_ok val_2022 then
         if is_zero (numeral_value val_2022) then Raise ZeroDivisionError
         else if token_ok n_2022 && token_ok n_2023 && token_ok growth then
           Return
             [ row (str "POS Payments") (str "Number of Transactions")
                   (format_1f (numeral_value n_2022) ++ str " million")
                   (format_1f (numeral_value n_2023) ++ str " million")
                   (str "+" ++ repr (numeral_value growth) ++ str "%");
               row (str "") (str "Value of Transactions")
                   (str "MAD " ++ format_1f (numeral_value val_2022) ++ str " billion")
                   (str "MAD " ++ format_1f (numeral_value val_2023) ++ str " billion")
                   (str "+"
                    ++ repr (py_round1
                               (fmul (fsub (SFdiv prec emax (numeral_value val_2023)
                                                  (numeral_value val_2022))
                                           (float_of_int 1))
                                     (float_of_int 100)))
                    ++ str "%") ]
         else Raise ValueError
       else Raise ValueError.
Proof.
  intros Hn Hv.
  destruct (pos_tokens s num val Hn Hv)
    as (g & n22 & n23 & v23 & v22 & -> & -> & Hg & Hn22 & Hn23 & Hv23 & Hv22).
  exists g, n22, n23, v23, v22. split; [done|]. split; [done|].
  unfold pos_rows. rewrite Hn, Hv.
  change (Re.group [v23; v22] 1) with v23. change (Re.group [v23; v22] 2) with v22.
  change (Re.group [g; n22; n23] 1) with g. change (Re.group [g; n22; n23] 2) with n22.
  change (Re.group [g; n22; n23] 3) with n23.
  rewrite (clean_value_token v23 Hv23), (clean_value_token v22 Hv22),
    (clean_value_token n22 Hn22), (clean_value_token n23 Hn23), (clean_value_token g Hg).
  unfold growth_of, truediv.
  destruct (token_ok v23); [|reflexivity]. rewrite bind_Return.
  destruct (token_ok v22); [|reflexivity]. rewrite bind_Return. cbn [andb].
  destruct (is_zero (numeral_value v22)); [reflexivity|]. rewrite !bind_Return.
  destruct (token_ok n22); [|reflexivity]. rewrite bind_Return.
  destruct (token_ok n23); [|reflexivity]. rewrite bind_Return.
  destruct (token_ok g); reflexivity.
Qed.

Lemma pos_rows_outcome_witness :
  exists growth n_2022 n_2023 val_2023 val_2022,
    [str "23"; str "106,4"; str "131,3"] = [growth; n_2022; n_2023]
    /\ [str "46,9"; str "39,2"] = [val_2023; val_2022]
    /\ pos_rows pos_sentence =
       if token_ok val_2023 && token_ok val_2022 then
         if is_zero (numeral_value val_2022) then Raise ZeroDivisionError
         else if token_ok n_2022 && token_ok n_2023 && token_ok growth then
           Return
             [ row (str "POS Payments") (str "Number of Transactions")
                   (format_1f (numeral_value n_2022) ++ str " million")
                   (format_1f (numeral_value n_2023) ++ str " million")
                   (str "+" ++ repr (numeral_value growth) ++ str "%");
               row (str "") (str "Value of Transactions")
                   (str "MAD " ++ format_1f (numeral_value val_2022) ++ str " billion")
                   (str "MAD " ++ format_1f (numeral_value val_2023) ++ str " billion")
                   (str "+"
                    ++ repr (py_round1
                               (fmul (fsub (SFdiv prec emax (numeral_value val_2023)
                                                  (numeral_value val_2022))
                                           (float_of_int 1))
                                     (float_of_int 100)))
                    ++ str "%") ]
         else Raise ValueError
       else Raise ValueError.
Proof.
  apply (pos_rows_outcome pos_sentence [str "23"; str "106,4"; str "131,3"]
           [str "46,9"; str "39,2"]); by vm_compute.
Defined.

(** X7. When the mobile wallet pattern matches, the rule returns its two
    rows, which show the same growth, exactly when the four counts and
    values convert, and raises [ValueError] otherwise; the growth itself
    always converts. *)
Theorem mobile_rows_outcome (s : text) (m : list text) :
  Re.search mobile_re s true = Some m ->
  exists n_2023 n_2022 v_2023 v_2022 growth,
    m = [n_2023; n_2022; v_2023; v_2022; growth]
    /\ digit_token growth
    /\ mobile_rows s =
       if token_ok n_2022 && token_ok n_2023 && token_ok v_2022 && token_ok v_2023 then
         Return
           [ row (str "Mobile Payments (M-Wallet)") (str "Number of Transactions")
                 (format_1f (numeral_value n_2022) ++ str " million")
                 (format_1f (numeral_value n_2023) ++ str " million")
                 (str "+" ++ repr (numeral_value growth) ++ str "%");
             row (str "") (str "Value of Transactions")
                 (str "MAD " ++ format_1f (numeral_value v_2022) ++ str " billion")
                 (str "MAD " ++ format_1f (numeral_value v_2023) ++ str " billion")
                 (str "+" ++ repr (numeral_value growth) ++ str "%") ]
       else Raise ValueError.
Proof.
  intros Hm.
  destruct (mobile_tokens s m Hm)
    as (n23 & n22 & v23 & v22 & g & -> & Hn23 & Hn22 & Hv23 & Hv22 & Hg).
  exists n23, n22, v23, v22, g. split; [done|]. split; [done|].
  destruct (digit_token_ok g Hg) as [Hg' Hok].
  unfold mobile_rows. rewrite Hm.
  change (Re.group [n23; n22; v23; v22; g] 1) with n23.
  change (Re.group [n23; n22; v23; v22; g] 2) with n22.
  change (Re.group [n23; n22; v23; v22; g] 3) with v23.
  change (Re.group [n23; n22; v23; v22; g] 4) with v22.
  change (Re.group [n23; n22; v23; v22; g] 5) with g.
  rewrite (clean_value_token v23 Hv23), (clean_value_token v22 Hv22),
    (clean_value_token n22 Hn22), (clean_value_token n23 Hn23),
    (clean_value_token g Hg'), Hok.
  rewrite bind_Return.
  destruct (token_ok n22); [|reflexivity]. rewrite bind_Return.
  destruct (token_ok n23); [|reflexivity]. rewrite bind_Return.
  destruct (token_ok v22); [|reflexivity]. rewrite bind_Return.
  destruct (token_ok v23); reflexivity.
Qed.

Lemma mobile_rows_outcome_witness :
  exists n_2023 n_2022 v_2023 v_2022 growth,
    [str "9,7"; str "7,9"; str "2,1"; str "1,7"; str "23"]
    = [n_2023; n_2022; v_2023; v_2022; growth]
    /\ digit_token growth
    /\ mobile_rows mobile_sentence =
       if token_ok n_2022 && token_ok n_2023 && token_ok v_2022 && token_ok v_2023 then
         Return
           [ row (str "Mobile Payments (M-Wallet)") (str "Number of Transactions")
                 (format_1f (numeral_value n_2022) ++ str " million")
                 (format_1f (numeral_value n_2023) ++ str " million")
                 (str "+" ++ repr (numeral_value growth) ++ str "%");
             row (str "") (str "Value of Transactions")
                 (str "MAD " ++ format_1f (numeral_value v_2022) ++ str " billion")
                 (str "MAD " ++ format_1f (numeral_value v_2023) ++ str " billion")
                 (str "+" ++ repr (numeral_value growth) ++ str "%") ]
       else Raise ValueError.
Proof.
  apply (mobile_rows_outcome mobile_sentence
           [str "9,7"; str "7,9"; str "2,1"; str "1,7"; str "23"]).
  by vm_compute.
Defined.

End ParserOutcomes.

(** ** The table and the errors of the parser *)

Section ParserTable.
Import Pd Report Runs Tokens Numerals.
Local Close Scope Z_scope.


Lemma clean_value_error (g : text) :
  (exists x, clean_value g = Return x) \/ clean_value g = Raise ValueError.
Proof.
  unfold clean_value, py_float. cbv zeta.
  destruct (negb _); [by right|].
  destruct (split_sign _) as [neg body].
  destruct (_ || _); [left; eauto|].
  destruct (text_eqb _ _); [left; eauto|].
  destruct (parse_decimal body) as [[m e]|]; [left; eauto|by right].
Qed.

Ltac run_clean_value g :=
  let x := fresh "x" in
  let E := fresh "E" in
  destruct (clean_value_error g) as [[x E]|E]; rewrite E;
  rewrite ?bind_Return, ?bind_Raise; cbv beta iota.

Lemma pos_rows_kinds (s : text) :
  match pos_rows s with
  | Return rs =>
    (rs = [] /\ (Re.search pos_num_re s true = None \/ Re.search pos_val_re s true = None))
    \/ (length rs = 2 /\ is_Some (Re.search pos_num_re s true)
        /\ is_Some (Re.search pos_val_re s true))
  | Raise e =>
    (e = ValueError \/ e = ZeroDivisionError)
    /\ is_Some (Re.search pos_num_re s true) /\ is_Some (Re.search pos_val_re s true)
  end.
Proof.
  unfold pos_rows.
  destruct (Re.search pos_num_re s true) as [num|];
    [|left; split; [done|by left]].
  destruct (Re.search pos_val_re s true) as [val|];
    [|left; split; [done|by right]].
  run_clean_value (Re.group val 1); [|split; [by left|split; eauto]].
  run_clean_value (Re.group val 2); [|split; [by left|split; eauto]].
  unfold growth_of, truediv.
  destruct (is_zero _); rewrite ?bind_Return, ?bind_Raise; cbv beta iota;
    [split; [by right|split; eauto]|].
  run_clean_value (Re.group num 2); [|split; [by left|split; eauto]].
  run_clean_value (Re.group num 3); [|split; [by left|split; eauto]].
  run_clean_value (Re.group num 1); [|split; [by left|split; eauto]].
  right. split; [done|split; eauto].
Qed.

Lemma mobile_rows_kinds (s : text) :
  match mobile_rows s with
  | Return rs =>
    (rs = [] /\ Re.search mobile_re s true = None)
    \/ (length rs = 2 /\ is_Some (Re.search mobile_re s true))
  | Raise e => e = ValueError /\ is_Some (Re.search mobile_re s true)
  end.
Proof.
  unfold mobile_rows.
  destruct (Re.search mobile_re s true) as [m|]; [|by left].
  run_clean_value (Re.group m 5); [|split; eauto].
  run_clean_value (Re.group m 2); [|split; eauto].
  run_clean_value (Re.group m 1); [|split; eauto].
  run_clean_value (Re.group m 4); [|split; eauto].
  run_clean_value (Re.group m 3); [|split; eauto].
  right. split; eauto.
Qed.

(** X8. A table returned by the parser has the rows of the POS rule
    followed by those of the mobile wallet rule; each rule gives two
    rows when its patterns match and none otherwise, so that a rule
    which does not match leaves the rows of the other one. *)
Theorem parsed_table_shape (s : text) (df : DataFrame) :
  parse_payment_data s = Return df ->
  exists pos mobile,
    pos_rows s = Return pos /\ mobile_rows s = Return mobile
    /\ rows df = map (map snd) (pos ++ mobile)
    /\ (pos = [] /\ (Re.search pos_num_re s true = None
                     \/ Re.search pos_val_re s true = None)
        \/ length pos = 2%nat /\ is_Some (Re.search pos_num_re s true)
           /\ is_Some (Re.search pos_val_re s true))
    /\ (mobile = [] /\ Re.search mobile_re s true = None
        \/ length mobile = 2%nat /\ is_Some (Re.search mobile_re s true)).
Proof.
  unfold parse_payment_data.
  pose proof (pos_rows_kinds s) as Hp. pose proof (mobile_rows_kinds s) as Hm.
  destruct (pos_rows s) as [pos|] eqn:H1; [|discriminate].
  destruct (mobile_rows s) as [mobile|] eqn:H2; [|discriminate].
  rewrite !bind_Return. intros [= <-]. exists pos, mobile.
  split; [done|]. split; [done|]. split; [|by split].
  apply pos_rows_keys in H1. apply mobile_rows_keys in H2.
  assert (Hall : Forall (fun r => keys r = column_labels) (pos ++ mobile))
    by (apply Forall_app; done).
  destruct (pos ++ mobile) as [|r recs]; [reflexivity|].
  by rewrite (of_records_uniform column_labels r recs column_labels_nodup Hall).
Qed.

Lemma parsed_table_shape_witness :
  exists pos mobile,
    pos_rows (pos_sentence ++ mobile_sentence) = Return pos
    /\ mobile_rows (pos_sentence ++ mobile_sentence) = Return mobile
    /\ rows (of_records
               [ row (str "POS Payments") (str "Number of Transactions")
                     (str "106.4 million") (str "131.3 million") (str "+23.0%");
                 row (str "") (str "Value of Transactions")
                     (str "MAD 39.2 billion") (str "MAD 46.9 billion") (str "+19.6%");
                 row (str "Mobile Payments (M-Wallet)") (str "Number of Transactions")
                     (str "7.9 million") (str "9.7 million") (str "+23.0%");
                 row (str "") (str "Value of Transactions")
                     (str "MAD 1.7 billion") (str "MAD 2.1 billion") (str "+23.0%") ])
       = map (map snd) (pos ++ mobile)
    /\ (pos = [] /\ (Re.search pos_num_re (pos_sentence ++ mobile_sentence) true = None
                     \/ Re.search pos_val_re (pos_sentence ++ mobile_sentence) true = None)
        \/ length pos = 2%nat
           /\ is_Some (Re.search pos_num_re (pos_sentence ++ mobile_sentence) true)
           /\ is_Some (Re.search pos_val_re (pos_sentence ++ mobile_sentence) true))
    /\ (mobile = [] /\ Re.search mobile_re (pos_sentence ++ mobile_sentence) true = None
        \/ length mobile = 2%nat
           /\ is_Some (Re.search mobile_re (pos_sentence ++ mobile_sentence) true)).
Proof.
  apply (parsed_table_shape (pos_sentence ++ mobile_sentence)).
  by vm_compute.
Defined.

(** X9. The parser raises nothing but [ValueError] and
    [ZeroDivisionError], and only for a text that one of the rules
    matches. *)
Theorem parser_raises_only_number_errors (s : text) (e : exn) :
  parse_payment_data s = Raise e ->
  (e = ValueError \/ e = ZeroDivisionError)
  /\ (is_Some (Re.search pos_num_re s true) /\ is_Some (Re.search pos_val_re s true)
      \/ is_Some (Re.search mobile_re s true)).
Proof.
  unfold parse_payment_data.
  pose proof (pos_rows_kinds s) as Hp. pose proof (mobile_rows_kinds s) as Hm.
  destruct (pos_rows s) as [pos|e1].
  - destruct (mobile_rows s) as [mobile|e2]; [discriminate|].
    rewrite bind_Return, bind_Raise. intros [= <-].
    destruct Hm as [-> Hm]. split; [by left|by right].
  - rewrite bind_Raise. intros [= <-]. destruct Hp as [He Hp']. split; [done|by left].
Qed.

Lemma parser_raises_only_number_errors_witness :
  (ZeroDivisionError = ValueError \/ ZeroDivisionError = ZeroDivisionError)
  /\ (is_Some (Re.search pos_num_re zero_prior_sentence true)
      /\ is_Some (Re.search pos_val_re zero_prior_sentence true)
      \/ is_Some (Re.search mobile_re zero_prior_sentence true)).
Proof.
  apply (parser_raises_only_number_errors zero_prior_sentence ZeroDivisionError).
  by vm_compute.
Defined.

End ParserTable.

(** ** The locator, the extractor and the state after a run *)

Section RunFacts.
Import Pd Report Runs Outcomes Cache.
Local Close Scope Z_scope.

(** *** The locator *)

Lemma contains_truthy (needle s : text) :
  needle <> [] -> contains needle s = true -> truthy s = true.
Proof. destruct s; [|done]. by destruct needle. Qed.

Lemma filter_head {A} (P : A -> Prop) `{!forall x, Decision (P x)} (l : list A) (x : A)
  (rest : list A) :
  filter P l = x :: rest ->
  exists skipped after, l = skipped ++ x :: after /\ Forall (fun y => ~ P y) skipped
                       /\ P x /\ rest = filter P after.
Proof.
  induction l as [|y l IH]; [done|].
  destruct (decide (P y)) as [Hy|Hy].
  - rewrite filter_cons_True by done. intros [= -> <-].
    exists [], l. by repeat split.
  - rewrite filter_cons_False by done. intros (sk & af & -> & Hsk & Hx & Hr)%IH.
    exists (y :: sk), af. repeat split; [|done|done]. by constructor.
Qed.

Lemma filter_first {A} (P : A -> Prop) `{!forall x, Decision (P x)}
  (skipped after : list A) (x : A) :
  Forall (fun y => ~ P y) skipped -> P x ->
  filter P (skipped ++ x :: after) = x :: filter P after.
Proof.
  intros Hsk Hx. induction Hsk as [|y sk Hy _ IH].
  - by rewrite app_nil_l, filter_cons_True.
  - rewrite <- app_comm_cons, filter_cons_False by done. exact IH.
Qed.

(** X1. The locator returns a URL exactly when the page is fetched, the
    download list is present and some option value contains "2023":
    the options before the first such value (those without a value, or
    without "2023" in it) are skipped, and the URL is that first value
    resolved against the site. *)
Theorem locator_takes_first_2023_option (web : Web) (base_url u : text) :
  get_latest_report_url web base_url = Some u <->
  exists skipped path after,
    landing web base_url = Return (Some (skipped ++ Some path :: after))
    /\ Forall (fun v => wanted v = false) skipped
    /\ contains (str "2023") path = true
    /\ resolve web base_url path = Return u.
Proof.
  unfold get_latest_report_url. split.
  - destruct (landing web base_url) as [[opts|]|]; try discriminate.
    destruct (filter _ opts) as [|[path|] rest] eqn:Hf; try discriminate.
    apply filter_head in Hf as (sk & af & -> & Hsk & Hx & _).
    destruct (resolve web base_url path) as [u'|] eqn:Hr; [|discriminate].
    intros [= ->]. exists sk, path, af.
    cbn [wanted] in Hx. apply andb_prop in Hx as [_ Hx].
    split; [done|]. split; [|by split].
    eapply Forall_impl; [exact Hsk|]. intros v Hv. by apply not_true_is_false.
  - intros (sk & path & af & -> & Hsk & Hc & Hr).
    rewrite filter_first; [by rewrite Hr| |].
    + eapply Forall_impl; [exact Hsk|]. intros v ->. discriminate.
    + cbn [wanted]. rewrite Hc, (contains_truthy (str "2023") path); done.
Qed.

(** *** The extractor *)

Lemma read_pages_first_error (pages : list (result text)) (full_text : text) :
  match first_error pages with
  | Some e => read_pages pages full_text = Raise e
  | None => exists t, read_pages pages full_text = Return t
  end.
Proof.
  revert full_text. induction pages as [|[t|e] pages IH]; intros full_text.
  - by exists full_text.
  - cbn [first_error read_pages]. rewrite bind_Return. apply IH.
  - reflexivity.
Qed.

(** X2. When the download fails, or the text of some page cannot be
    extracted, the extractor returns [None] and reports that first
    error; the text of the pages read before it is discarded. *)
Theorem extraction_error_discards_all_text (web : Web) (pdf_url : text) (st : State)
  (e : exn) :
  download web pdf_url = Raise e
  \/ (exists pages, download web pdf_url = Return pages /\ first_error pages = Some e) ->
  extract_text_from_pdf web pdf_url st = (show (StError e) st, None).
Proof.
  unfold extract_text_from_pdf. intros [-> | (pages & -> & He)].
  - reflexivity.
  - rewrite bind_Return.
    pose proof (read_pages_first_error pages []) as H. rewrite He in H.
    by rewrite H.
Qed.

Lemma extraction_error_discards_all_text_witness :
  extract_text_from_pdf
    (web_serving [Return (str "Rapport annuel"); Raise RequestError; Return (str "fin")])
    report_url new_session
  = (show (StError RequestError) new_session, None).
Proof.
  apply extraction_error_discards_all_text. right.
  exists [Return (str "Rapport annuel"); Raise RequestError; Return (str "fin")].
  split; reflexivity.
Defined.

(** *** Collapsing blanks *)

Lemma sub_blanks_from_keeps (in_run : bool) (s : text) :
  filter not_blank (Re.sub_blanks_from in_run s) = filter not_blank s
  /\ (length (Re.sub_blanks_from in_run s) <= length s)%nat.
Proof.
  revert in_run. unfold text.
  induction s as [|c s IH]; intros in_run; [done|].
  cbn [Re.sub_blanks_from]. destruct (is_space c) eqn:Hc.
  - destruct (IH true) as [Hf Hl].
    rewrite (filter_cons_False not_blank c s) by (unfold not_blank; by rewrite Hc).
    destruct in_run; cbn [app].
    + split; [done|simpl; lia].
    + rewrite filter_cons_False by done. split; [done|simpl; lia].
  - destruct (IH false) as [Hf Hl].
    rewrite !filter_cons_True by done. rewrite Hf. split; [done|simpl; lia].
Qed.

Lemma sub_blanks_from_fixed (in_run : bool) (s : text) :
  no_double_blank s = true ->
  Forall (fun c => is_space c = true -> c = chr " ") s ->
  (in_run = true -> starts_blank s = false) ->
  Re.sub_blanks_from in_run s = s.
Proof.
  revert in_run. induction s as [|c s IH]; intros in_run Hnd Hsp Hst; [done|].
  apply Forall_cons in Hsp as [Hc Hsp].
  assert (Hnd' : no_double_blank s = true /\ (is_space c = true -> starts_blank s = false)).
  { destruct s as [|d s]; [by split|].
    cbn [no_double_blank] in Hnd. apply andb_prop in Hnd as [H1 H2].
    split; [done|]. intros Hcs. rewrite Hcs in H1. cbn [andb] in H1.
    by apply negb_true_iff in H1. }
  destruct Hnd' as [Hnd' Hnext].
  cbn [Re.sub_blanks_from]. destruct (is_space c) eqn:Hcs.
  - destruct in_run; [by specialize (Hst eq_refl); cbn in Hst; rewrite Hcs in Hst|].
    cbn [app]. rewrite (Hc eq_refl). f_equal. apply IH; [done|done|by intros _; apply Hnext].
  - f_equal. apply IH; [done|done|discriminate].
Qed.

(** X3. Collapsing the blanks of a page keeps every character that is
    not a blank, in order; it never lengthens the text, and doing it
    twice changes nothing more. *)
Theorem sub_blanks_keeps_words (s : text) :
  filter not_blank (Re.sub_blanks s) = filter not_blank s
  /\ (length (Re.sub_blanks s) <= length s)%nat
  /\ Re.sub_blanks (Re.sub_blanks s) = Re.sub_blanks s.
Proof.
  split; [apply sub_blanks_from_keeps|]. split; [apply sub_blanks_from_keeps|].
  unfold Re.sub_blanks. apply sub_blanks_from_fixed.
  - apply sub_blanks_from_spec.
  - apply sub_blanks_only_spaces.
  - discriminate.
Qed.

(** *** The session and the page after a run *)

Lemma session_after_run (web : Web) (st : State) :
  session_state (get_bam_report_data web st).1
  = <["bam_source_url"%string := reference_after web (session_state st)]>
      (session_state st).
Proof.
  assert (Hfb : forall s : State,
             session_state (fall_back s).1
             = <["bam_source_url"%string :=
                   default page_url (session_state s !! "bam_source_url"%string)]>
                 (session_state s)).
  { intros s. unfold fall_back. cbn [fst].
    destruct (session_state s !! "bam_source_url"%string) as [v|] eqn:Hk; cbn [default].
    - symmetry. by apply insert_id.
    - reflexivity. }
  unfold reference_after, located, get_bam_report_data.
  destruct (get_latest_report_url web page_url) as [u|]; [|apply Hfb].
  destruct (truthy u); [|apply Hfb].
  cbv zeta.
  pose proof (extract_keeps_session web u (set_state "bam_source_url" u st)) as Hs.
  destruct (extract_text_from_pdf _ _ _) as [st2 ex]. cbn [fst] in Hs.
  assert (Hst2 : session_state st2 = <["bam_source_url"%string := u]> (session_state st))
    by exact Hs.
  assert (Hfb2 : session_state (fall_back st2).1
                 = <["bam_source_url"%string := u]> (session_state st)).
  { rewrite Hfb, Hst2, lookup_insert_eq. cbn [default]. apply insert_insert_eq. }
  destruct ex as [t|]; [|exact Hfb2].
  destruct (truthy t); [|exact Hfb2].
  destruct (parse_payment_data t) as [df|e]; [|exact Hst2].
  destruct (empty df); [exact Hfb2|exact Hst2].
Qed.

(** X11. A run writes one key of the session state, [bam_source_url],
    which always holds a reference afterwards; every other key keeps
    its value. *)
Theorem run_writes_one_session_key (web : Web) (st : State) (k : string) :
  session_state (get_bam_report_data web st).1 !! k
  = if decide (k = "bam_source_url"%string)
    then Some (reference_after web (session_state st))
    else session_state st !! k.
Proof.
  rewrite session_after_run. destruct (decide _) as [->|Hk].
  - apply lookup_insert_eq.
  - by apply lookup_insert_ne.
Qed.

Lemma extract_text_same (web : Web) (u : text) (st st' : State) :
  (extract_text_from_pdf web u st).2 = (extract_text_from_pdf web u st').2.
Proof.
  unfold extract_text_from_pdf. by destruct (_ ← download web u; _).
Qed.

Lemma table_same (web : Web) (st st' : State) :
  (get_bam_report_data web st).2 = (get_bam_report_data web st').2.
Proof.
  unfold get_bam_report_data.
  destruct (get_latest_report_url web page_url) as [u|]; [|reflexivity].
  destruct (truthy u); [|reflexivity]. cbv zeta.
  pose proof (extract_text_same web u (set_state "bam_source_url" u st)
                (set_state "bam_source_url" u st')) as He.
  destruct (extract_text_from_pdf web u (set_state _ u st)) as [s2 ex].
  destruct (extract_text_from_pdf web u (set_state _ u st')) as [s2' ex'].
  cbn [snd] in He. subst ex'.
  destruct ex as [t|]; [|reflexivity].
  destruct (truthy t); [|reflexivity].
  destruct (parse_payment_data t) as [df|e]; [|reflexivity].
  destruct (empty df); reflexivity.
Qed.

(** X12. A second run in the same session against the same answers
    returns the same table and leaves the session state as the first
    run left it; the table does not depend on the session. *)
Theorem second_run_changes_nothing (web : Web) (st : State) :
  let st1 := (get_bam_report_data web st).1 in
  (get_bam_report_data web st1).2 = (get_bam_report_data web st).2
  /\ session_state (get_bam_report_data web st1).1 = session_state st1.
Proof.
  cbv zeta. split; [apply table_same|].
  rewrite !session_after_run.
  unfold reference_after. destruct (located web) as [u|].
  - apply insert_insert_eq.
  - rewrite lookup_insert_eq. cbn [default]. apply insert_insert_eq.
Qed.

Lemma messages_after (web : Web) (st : State) (evs : list event) :
  shown (get_bam_report_data web st).1 = shown st ++ evs -> messages web st = evs.
Proof. unfold messages. intros ->. apply drop_app_length. Qed.

(** X10. A run shows at most one message: none with the fallback table
    or a parser error, the extraction error with the fallback table
    after a document was located, the success message with a parsed
    table that is not empty. *)
Theorem run_shows_at_most_one_message (web : Web) (st : State) :
  shown (get_bam_report_data web st).1 = shown st ++ messages web st
  /\ (messages web st = []
      /\ ((get_bam_report_data web st).2 = Return fallback_df
          \/ exists e, (get_bam_report_data web st).2 = Raise e)
      \/ (exists e, messages web st = [StError e]
                    /\ (get_bam_report_data web st).2 = Return fallback_df
                    /\ is_Some (located web))
      \/ (exists df, messages web st = [StSuccess]
                     /\ (get_bam_report_data web st).2 = Return df
                     /\ empty df = false)).
Proof.
  assert (Hcases :
    exists evs, shown (get_bam_report_data web st).1 = shown st ++ evs
      /\ (evs = []
          /\ ((get_bam_report_data web st).2 = Return fallback_df
              \/ exists e, (get_bam_report_data web st).2 = Raise e)
          \/ (exists e, evs = [StError e]
                        /\ (get_bam_report_data web st).2 = Return fallback_df
                        /\ is_Some (located web))
          \/ (exists df, evs = [StSuccess]
                         /\ (get_bam_report_data web st).2 = Return df
                         /\ empty df = false))).
  { unfold located, get_bam_report_data.
    destruct (get_latest_report_url web page_url) as [u|].
    2:{ exists []. rewrite fall_back_shown, app_nil_r. split; [done|]. left. split; [done|by left]. }
    destruct (truthy u).
    2:{ exists []. rewrite fall_back_shown, app_nil_r. split; [done|]. left. split; [done|by left]. }
    cbv zeta. unfold extract_text_from_pdf.
    destruct (_ ← download web u; _) as [t|e].
    - destruct (truthy t).
      2:{ exists []. rewrite fall_back_shown, app_nil_r. split; [done|]. left. split; [done|by left]. }
      destruct (parse_payment_data t) as [df|e].
      + destruct (empty df) eqn:He; cbn [negb].
        * exists []. rewrite fall_back_shown, app_nil_r. split; [done|]. left. split; [done|by left].
        * exists [StSuccess]. split; [done|]. right; right. by exists df.
      + exists []. rewrite app_nil_r. split; [done|]. left. split; [done|]. right. by exists e.
    - exists [StError e]. rewrite fall_back_shown. split; [done|].
      right; left. exists e. split; [done|]. split; [done|]. by exists u. }
  destruct Hcases as (evs & Hev & Hc).
  rewrite (messages_after web st evs Hev). by split.
Qed.

Lemma tab1_body_run (web : Web) (st : State) :
  match (get_bam_report_data web st).2 with
  | Return df =>
    show_tab1 web st
    = (show (StCaption (reference_after web (session_state st)))
         (show (StDataframe df) (get_bam_report_data web st).1), Return tt)
    /\ empty df = false
  | Raise e => show_tab1 web st = ((get_bam_report_data web st).1, Raise e)
  end.
Proof.
  pose proof (session_after_run web st) as Hs.
  pose proof (run_outcomes web st) as Ho.
  unfold show_tab1.
  destruct (get_bam_report_data web st) as [st1 [df|e]]; cbn [fst snd] in *; [|done].
  assert (He : empty df = false).
  { destruct Ho as [[= ->]|[(t & df' & _ & He & [= ->])|(t & e & _ & [=])]];
      [apply fallback_not_empty|done]. }
  rewrite He. cbn [negb]. cbn [show session_state]. rewrite Hs, lookup_insert_eq.
  done.
Qed.

(** X13. The first tab behind the cache.  A visit that runs the body
    and gets a table shows it with the caption that cites the reference
    recorded by the run, and stores the table in the cache; when the
    body raises, nothing is stored and the error goes through the tab.
    A later visit that is served from this cache, in any session,
    leaves the session state and the cache as they are and shows the
    stored messages and the table again, with the caption only when
    that session holds a reference: a session that has not run the body
    itself shows the table without its source. *)
Theorem cached_table_cites_the_session_source (web : Web) (st0 st : State) :
  match (get_bam_report_data web st0).2 with
  | Return df =>
    let e := {| table := df; replayed := messages web st0 |} in
    tab1 web None st0
    = (Some e,
       show (StCaption (reference_after web (session_state st0)))
         (show (StDataframe df) (get_bam_report_data web st0).1),
       Return tt)
    /\ tab1 web (Some e) st = (Some e, served e st, Return tt)
    /\ session_state (served e st) = session_state st
    /\ shown (served e st)
       = shown st ++ messages web st0
         ++ StDataframe df :: match session_state st !! "bam_source_url"%string with
                              | Some url => [StCaption url]
                              | None => []
                              end
  | Raise x => tab1 web None st0 = (None, (get_bam_report_data web st0).1, Raise x)
  end.
Proof.
  pose proof (session_after_run web st0) as Hs.
  pose proof (tab1_body_run web st0) as Hb.
  unfold tab1, cached_get_bam_report_data.
  destruct (get_bam_report_data web st0) as [st1 [df|x]]; cbn [fst snd] in *.
  - destruct Hb as [_ He]. rewrite He. cbn [negb].
    split; [|split; [|split]].
    + cbn [show session_state]. by rewrite Hs, lookup_insert_eq.
    + cbn [table]. rewrite He. cbn [negb]. unfold served. cbn [show session_state table].
      by destruct (session_state st !! "bam_source_url"%string).
    + unfold served. cbn [table replayed].
      by destruct (session_state st !! "bam_source_url"%string).
    + unfold served. cbn [table replayed].
      destruct (session_state st !! "bam_source_url"%string);
        cbn [show shown]; by rewrite <- !app_assoc.
  - reflexivity.
Qed.

End RunFacts.

(** ** The aggregated table *)

Section MoreAppsFacts.
Import Pd Apps Aggregate Lookups.
Local Close Scope Z_scope.

Lemma successes_nil (env : Stores) (p : platform) (reg : registry) :
  successes env p reg = []
  <-> Forall (fun item => returns (attempt env p item.1 item.2) = false) reg.
Proof.
  unfold successes. induction reg as [|[name app_id] reg IH]; [by split|].
  rewrite Forall_cons. cbn [omap list_omap fst snd].
  destruct (attempt env p name app_id) as [e|x]; cbn [catch returns].
  - split; [discriminate|]. by intros [[=] _].
  - rewrite IH. split; [by split|by intros [_ ?]].
Qed.

Lemma successes_length (env : Stores) (p : platform) (reg : registry) :
  (length (successes env p reg) <= length reg)%nat.
Proof.
  unfold successes. induction reg as [|item reg IH]; [done|].
  cbn [omap list_omap]. destruct (catch _); simpl; lia.
Qed.

Lemma labels_length (e : dict) : keys e = entry_labels -> length (map snd e) = 7%nat.
Proof.
  intros H. rewrite length_map, <- (length_map fst e).
  change (map fst e) with (keys e). by rewrite H.
Qed.

(** X14. The aggregated table has one row for each pair whose block
    succeeded, labelled with the wallet and the platform, Android first
    and each platform in registry order; it has the seven columns when
    there is a row and no column at all otherwise, every row has seven
    cells, and there are no more rows than registry items. *)
Theorem app_table_layout (env : Stores) (android ios : registry) :
  let df := get_app_store_data env android ios in
  labels df = map (label Android) (succeeded env Android android)
              ++ map (label IOS) (succeeded env IOS ios)
  /\ columns df = match rows df with [] => [] | _ :: _ => entry_labels end
  /\ Forall (fun r => length r = 7%nat) (rows df)
  /\ (length (rows df) <= length android + length ios)%nat.
Proof.
  cbv zeta. split; [apply app_table_labels|]. rewrite app_table.
  assert (Hall : Forall (fun e => keys e = entry_labels)
                   (successes env Android android ++ successes env IOS ios)).
  { apply Forall_app. split; apply successes_labels. }
  assert (Hlen : (length (successes env Android android ++ successes env IOS ios)
                  <= length android + length ios)%nat).
  { rewrite length_app.
    pose proof (successes_length env Android android).
    pose proof (successes_length env IOS ios). lia. }
  destruct (_ ++ _) as [|e es] eqn:He.
  - rewrite of_records_nil. cbn [rows columns map]. split_and!; [done|constructor|simpl; lia].
  - rewrite (of_records_uniform entry_labels e es entry_labels_nodup Hall).
    cbn [rows columns]. split_and!; [done| |by rewrite length_map].
    apply Forall_forall. intros r (x & -> & Hx)%list_elem_of_fmap.
    apply labels_length. rewrite Forall_forall in Hall. by apply Hall.
Qed.

(** X15. The aggregated table is empty exactly when the block of every
    pair of both registries raises. *)
Theorem app_table_empty_iff_all_fail (env : Stores) (android ios : registry) :
  empty (get_app_store_data env android ios) = true
  <-> Forall (fun item => returns (android_entry env item.1 item.2) = false) android
      /\ Forall (fun item => returns (ios_entry env item.1 item.2) = false) ios.
Proof.
  rewrite <- (successes_nil env Android android), <- (successes_nil env IOS ios).
  rewrite app_table.
  assert (Hall : Forall (fun e => keys e = entry_labels)
                   (successes env Android android ++ successes env IOS ios)).
  { apply Forall_app. split; apply successes_labels. }
  destruct (successes env Android android) as [|a la];
    destruct (successes env IOS ios) as [|b lb]; cbn [app] in *.
  - by rewrite of_records_nil.
  - rewrite (of_records_uniform entry_labels b lb entry_labels_nodup Hall).
    split; [discriminate|]. by intros [_ [=]].
  - rewrite (of_records_uniform entry_labels a _ entry_labels_nodup Hall).
    split; [discriminate|]. by intros [[=] _].
  - rewrite (of_records_uniform entry_labels a _ entry_labels_nodup Hall).
    split; [discriminate|]. by intros [[=] _].
Qed.

Lemma filter_none {A} (P : A -> Prop) `{!forall x, Decision (P x)} (l : list A) :
  Forall (fun x => ~ P x) l -> filter P l = [].
Proof.
  induction 1 as [|x l Hx _ IH]; [done|]. by rewrite filter_cons_False.
Qed.

Lemma no_rows_of_absent_wallet (env : Stores) (p : platform) (reg : registry)
  (name : text) :
  name ∉ reg.*1 ->
  filter (fun r => row_wallet r = Some name) (map (map snd) (successes env p reg)) = [].
Proof.
  intros Hn. apply filter_none, Forall_forall. intros r Hr Hw.
  apply successes_rows in Hr as (n & [rest ->] & Hin).
  injection Hw as ->. done.
Qed.

Lemma successes_app (env : Stores) (p : platform) (a b : registry) :
  successes env p (a ++ b) = successes env p a ++ successes env p b.
Proof. apply omap_app. Qed.

Lemma successes_cons_ok (env : Stores) (p : platform) (reg : registry)
  (name app_id : text) (e : dict) :
  attempt env p name app_id = Return e ->
  successes env p ((name, app_id) :: reg) = e :: successes env p reg.
Proof. intros He. unfold successes. cbn [omap list_omap fst snd]. by rewrite He. Qed.

Lemma rows_of_wallet (env : Stores) (p : platform) (before after : registry)
  (name app_id : text) (e : dict) :
  NoDup (before ++ (name, app_id) :: after).*1 ->
  attempt env p name app_id = Return e ->
  filter (fun r => row_wallet r = Some name)
    (map (map snd) (successes env p (before ++ (name, app_id) :: after)))
  = [map snd e].
Proof.
  intros Hnd He.
  apply absent_elsewhere in Hnd. rewrite fmap_app in Hnd.
  apply not_elem_of_app in Hnd as [Hb Ha].
  rewrite successes_app, (successes_cons_ok env p after name app_id e He).
  rewrite map_app, map_cons, filter_app.
  pose proof (no_rows_of_absent_wallet env p before name Hb) as E1.
  pose proof (no_rows_of_absent_wallet env p after name Ha) as E2.
  unfold dict in *. rewrite E1. cbn [app].
  rewrite filter_cons_True.
  - by rewrite E2.
  - apply attempt_shape in He as [_ [rest ->]]. reflexivity.
Qed.

(** X16. A wallet of both registries whose two blocks succeed has
    exactly two rows in the table, the one of its Android entry and
    then the one of its iOS entry: rows are never merged by wallet. *)
Theorem wallet_on_both_platforms_has_two_rows (env : Stores)
  (a1 a2 i1 i2 : registry) (name android_id ios_id : text) :
  NoDup (a1 ++ (name, android_id) :: a2).*1 ->
  NoDup (i1 ++ (name, ios_id) :: i2).*1 ->
  returns (android_entry env name android_id) = true ->
  returns (ios_entry env name ios_id) = true ->
  map (take 2)
    (filter (fun r => row_wallet r = Some name)
       (rows (get_app_store_data env (a1 ++ (name, android_id) :: a2)
                (i1 ++ (name, ios_id) :: i2))))
  = [ [PyStr name; PyStr (str "Android")]; [PyStr name; PyStr (str "iOS")] ].
Proof.
  intros Ha Hi Hea Hei.
  destruct (android_entry env name android_id) as [ea|] eqn:Ea; [|discriminate].
  destruct (ios_entry env name ios_id) as [ei|] eqn:Ei; [|discriminate].
  rewrite app_table_rows, map_app, filter_app.
  pose proof (rows_of_wallet env Android a1 a2 name android_id ea Ha Ea) as E1.
  pose proof (rows_of_wallet env IOS i1 i2 name ios_id ei Hi Ei) as E2.
  unfold dict in *. rewrite E1, E2.
  apply (attempt_shape env Android) in Ea as [_ [ra ->]].
  apply (attempt_shape env IOS) in Ei as [_ [ri ->]].
  reflexivity.
Qed.

Lemma wallet_on_both_platforms_has_two_rows_witness :
  map (take 2)
    (filter (fun r => row_wallet r = Some (str "Glovo"))
       (rows (get_app_store_data sample_stores
                (take 10 wallet_apps_android ++ (str "Glovo", str "com.glovo") :: [])
                (take 10 wallet_apps_ios ++ (str "Glovo", str "951812684") :: []))))
  = [ [PyStr (str "Glovo"); PyStr (str "Android")];
      [PyStr (str "Glovo"); PyStr (str "iOS")] ].
Proof.
  apply (wallet_on_both_platforms_has_two_rows sample_stores
           (take 10 wallet_apps_android) [] (take 10 wallet_apps_ios) []
           (str "Glovo") (str "com.glovo") (str "951812684")).
  - apply (bool_decide_unpack _). by vm_compute.
  - apply (bool_decide_unpack _). by vm_compute.
  - by vm_compute.
  - by vm_compute.
Defined.

(** *** The fields of an entry *)

Lemma slice_bound (v d : value) :
  slice_to 200 v = Return d ->
  match d with
  | PyStr s => (length s <= 200)%nat
  | PyList l => (length l <= 200)%nat
  | _ => False
  end.
Proof.
  destruct v; try discriminate; intros [= <-]; rewrite length_take; lia.
Qed.

(** X17. Every entry has a Description, a string or a list of at most
    200 items. *)
Theorem description_is_truncated (env : Stores) (p : platform) (name app_id : text)
  (e : dict) :
  attempt env p name app_id = Return e ->
  exists d, lookup_key (str "Description") e = Some d
            /\ match d with
               | PyStr s => (length s <= 200)%nat
               | PyList l => (length l <= 200)%nat
               | _ => False
               end.
Proof.
  destruct p; unfold attempt, android_entry, ios_entry; cbv zeta.
  - destruct (google_play env app_id) as [details|]; [|discriminate].
    rewrite bind_Return.
    destruct (fromtimestamp_ymd env _) as [date|]; [|discriminate].
    rewrite bind_Return.
    destruct (slice_to 200 _) as [d|] eqn:Hd; [|discriminate].
    rewrite bind_Return. intros [= <-]. exists d. split; [by vm_compute|].
    by apply slice_bound in Hd.
  - destruct (itunes env _) as [json|]; [|discriminate]. rewrite bind_Return.
    destruct (getitem_str json _) as [results|]; [|discriminate]. rewrite bind_Return.
    destruct (getitem_0 results) as [first|]; [|discriminate]. rewrite bind_Return.
    destruct (as_dict first) as [d0|]; [|discriminate]. rewrite bind_Return.
    destruct (split_first _ _) as [date|]; [|discriminate]. rewrite bind_Return.
    destruct (slice_to 200 _) as [d|] eqn:Hd; [|discriminate].
    rewrite bind_Return. intros [= <-]. exists d. split; [by vm_compute|].
    by apply slice_bound in Hd.
Qed.

Lemma description_is_truncated_witness :
  exists d,
    lookup_key (str "Description")
      [ (str "Wallet", PyStr (str "Glovo")); (str "Platform", PyStr (str "iOS"));
        (str "Installs", PyStr (str "N/A"));
        (str "Score", PyFloat (S754_finite false 5179139571476070 (-50)));
        (str "Ratings", PyInt 20417);
        (str "Last Updated", PyStr (str "2024-02-27"));
        (str "Description", PyStr (str "Glovo")) ] = Some d
    /\ match d with
       | PyStr s => (length s <= 200)%nat
       | PyList l => (length l <= 200)%nat
       | _ => False
       end.
Proof.
  apply (description_is_truncated sample_stores IOS (str "Glovo") (str "951812684")).
  by vm_compute.
Defined.

(** X18. An iOS lookup whose first result has neither a release date
    nor a description still gives an entry, with empty Last Updated and
    Description, Installs "N/A" and the ratings as found. *)
Theorem ios_missing_fields_default (env : Stores) (name app_id : text)
  (top d : dict) (more : list value) :
  itunes env (str "https://itunes.apple.com/lookup?id=" ++ app_id ++ str "&country=ma")
    = Return (PyDict top) ->
  lookup_key (str "results") top = Some (PyList (PyDict d :: more)) ->
  lookup_key (str "currentVersionReleaseDate") d = None ->
  lookup_key (str "description") d = None ->
  ios_entry env name app_id
  = Return [ (str "Wallet", PyStr name);
             (str "Platform", PyStr (str "iOS"));
             (str "Installs", PyStr (str "N/A"));
             (str "Score", get d (str "averageUserRating"));
             (str "Ratings", get d (str "userRatingCount"));
             (str "Last Updated", PyStr []);
             (str "Description", PyStr []) ].
Proof.
  intros Hj Hr Hd Hx. unfold ios_entry. cbv zeta.
  rewrite Hj, bind_Return. cbn [getitem_str]. rewrite Hr, bind_Return.
  cbn [getitem_0]. rewrite bind_Return. cbn [as_dict]. rewrite bind_Return.
  unfold get_or. rewrite Hd, Hx. reflexivity.
Qed.

Lemma ios_missing_fields_default_witness :
  ios_entry (stores_answering bare_lookup) (str "Ora") (str "6670762251")
  = Return [ (str "Wallet", PyStr (str "Ora"));
             (str "Platform", PyStr (str "iOS"));
             (str "Installs", PyStr (str "N/A"));
             (str "Score", get [ (str "userRatingCount", PyInt 7) ] (str "averageUserRating"));
             (str "Ratings", get [ (str "userRatingCount", PyInt 7) ] (str "userRatingCount"));
             (str "Last Updated", PyStr []);
             (str "Description", PyStr []) ].
Proof.
  apply (ios_missing_fields_default (stores_answering bare_lookup) (str "Ora")
           (str "6670762251")
           [ (str "resultCount", PyInt 1);
             (str "results", PyList [ PyDict [ (str "userRatingCount", PyInt 7) ] ]) ]
           [ (str "userRatingCount", PyInt 7) ] []).
  - reflexivity.
  - by vm_compute.
  - by vm_compute.
  - by vm_compute.
Defined.

(** X19. An iOS lookup without results (no such key, or an empty
    list), or whose release date is null, raises inside the guarded
    block ([KeyError], [IndexError], [AttributeError]) and the app is
    left out of the table. *)
Theorem ios_unusable_reply_skips_app (env : Stores) (name app_id : text) (top : dict)
  (before after android : registry) :
  itunes env (str "https://itunes.apple.com/lookup?id=" ++ app_id ++ str "&country=ma")
    = Return (PyDict top) ->
  lookup_key (str "results") top = None
  \/ lookup_key (str "results") top = Some (PyList [])
  \/ (exists d more,
         lookup_key (str "results") top = Some (PyList (PyDict d :: more))
         /\ lookup_key (str "currentVersionReleaseDate") d = Some PyNone) ->
  (ios_entry env name app_id = Raise KeyError
   \/ ios_entry env name app_id = Raise IndexError
   \/ ios_entry env name app_id = Raise AttributeError)
  /\ get_app_store_data env android (before ++ (name, app_id) :: after)
     = get_app_store_data env android (before ++ after).
Proof.
  intros Hj Hcase.
  assert (He : ios_entry env name app_id = Raise KeyError
               \/ ios_entry env name app_id = Raise IndexError
               \/ ios_entry env name app_id = Raise AttributeError).
  { unfold ios_entry. cbv zeta.
    rewrite Hj, bind_Return. cbn [getitem_str].
    destruct Hcase as [-> | [-> | (d & more & -> & Hd)]].
    - by left.
    - right; left. reflexivity.
    - right; right. rewrite bind_Return. cbn [getitem_0]. rewrite bind_Return.
      cbn [as_dict]. rewrite bind_Return. unfold get_or. rewrite Hd. reflexivity. }
  split; [exact He|].
  apply (failed_pair_skipped env IOS before after android name app_id).
  cbn [attempt]. by destruct He as [-> | [-> | ->]].
Qed.

Lemma ios_unusable_reply_skips_app_witness :
  (ios_entry (stores_answering null_date_lookup) (str "Ora") (str "6670762251")
     = Raise KeyError
   \/ ios_entry (stores_answering null_date_lookup) (str "Ora") (str "6670762251")
      = Raise IndexError
   \/ ios_entry (stores_answering null_date_lookup) (str "Ora") (str "6670762251")
      = Raise AttributeError)
  /\ get_app_store_data (stores_answering null_date_lookup) wallet_apps_android
       ([] ++ (str "Ora", str "6670762251") :: [])
     = get_app_store_data (stores_answering null_date_lookup) wallet_apps_android
         ([] ++ []).
Proof.
  apply (ios_unusable_reply_skips_app (stores_answering null_date_lookup) (str "Ora")
           (str "6670762251")
           [ (str "resultCount", PyInt 1);
             (str "results",
              PyList [ PyDict [ (str "currentVersionReleaseDate", PyNone);
                                (str "description", PyStr (str "Ora")) ] ]) ]
           [] [] wallet_apps_android).
  - reflexivity.
  - right; right.
    exists [ (str "currentVersionReleaseDate", PyNone);
             (str "description", PyStr (str "Ora")) ], [].
    split; by vm_compute.
Defined.

(** X20. Android details with an integer update time and no description
    give an entry whose Last Updated is the local date of that time and
    whose Description is empty; installs, score and ratings are passed
    on, [None] when missing. *)
Theorem android_entry_of_details (env : Stores) (name app_id : text)
  (details : dict) (seconds : Z) (date : text) :
  google_play env app_id = Return details ->
  lookup_key (str "updated") details = Some (PyInt seconds) ->
  local_date env seconds = Return date ->
  lookup_key (str "description") details = None ->
  android_entry env name app_id
  = Return [ (str "Wallet", PyStr name);
             (str "Platform", PyStr (str "Android"));
             (str "Installs", default PyNone (lookup_key (str "installs") details));
             (str "Score", default PyNone (lookup_key (str "score") details));
             (str "Ratings", default PyNone (lookup_key (str "ratings") details));
             (str "Last Updated", PyStr date);
             (str "Description", PyStr []) ].
Proof.
  intros Hq Hu Hd Hx. unfold android_entry. rewrite Hq, bind_Return.
  unfold fromtimestamp_ymd, get, get_or. rewrite Hu, Hx. cbn [default timestamp_seconds].
  change (timestamp_seconds (id (PyInt seconds))) with (Return (A:=Z) seconds).
  rewrite bind_Return, Hd, bind_Return. reflexivity.
Qed.

Lemma android_entry_of_details_witness :
  android_entry (stores_answering bare_lookup) (str "Ora") (str "com.oracash")
  = Return [ (str "Wallet", PyStr (str "Ora"));
             (str "Platform", PyStr (str "Android"));
             (str "Installs", default PyNone (lookup_key (str "installs") updated_only));
             (str "Score", default PyNone (lookup_key (str "score") updated_only));
             (str "Ratings", default PyNone (lookup_key (str "ratings") updated_only));
             (str "Last Updated", PyStr (str "2024-03-01"));
             (str "Description", PyStr []) ].
Proof.
  apply (android_entry_of_details (stores_answering bare_lookup) (str "Ora")
           (str "com.oracash") updated_only 1709251200 (str "2024-03-01"));
    by vm_compute.
Defined.

End MoreAppsFacts.
